(** * WarehouseManager: a shallow embedding of [warehouse_manager.py]

    The manager is a Python object holding a session state (the selected
    warehouse, the list of warehouse names and two one-shot fields) and a
    connection to an SQLite database with one table per warehouse.  Every
    method builds the text of one or more SQL statements, sends it through
    [__execute_query] or [__execute_read_query], and updates the fields.

    The embedding has three layers.
    - Python values: [None] as [option], [int(str)] as [py_int], list
      membership, [append] and [remove], subscripting with its exceptions.
    - The database behind the connection: tables of typed rows, the
      statements the manager issues as a small syntax, and an interpreter
      that either changes the store or rejects the statement (the
      [sqlite3.Error] the two helpers catch and print).
    - The methods, written in an exception-and-state monad over the fields.

    The manager builds statements by interpolation, so what a piece of text
    means in a table position, between quotes, or after [id =] is decided by
    the engine's parser.  That decision is the record [Lexer]; results hold
    for every lexer.  A text between quotes may be read as a text value, be
    refused, or close the quote and change the statement it stands in; a
    text in a table position is read as a table name or refused.

    Python integers are unbounded; the engine's are 64-bit.  An id outside
    that range is refused, an insert after the largest id fails, and a
    quantity that leaves the range is computed in floating point from then
    on: the embedding records that it did ([Approx]) and not which number it
    became. *)

From Stdlib Require Import ZArith List Bool String Ascii Lia Permutation.
Import ListNotations.
Open Scope string_scope.
Open Scope Z_scope.

(** ** Python values *)

(** The exceptions that can escape a method. *)
Inductive PyExn : Type :=
| TypeError       (* subscripting [None] *)
| IndexError      (* subscripting past the end of a list or tuple *)
| ValueError      (* [list.remove(x)] with [x] absent *)
| AttributeError. (* [None.cursor()] *)

(** A cell of a fetched tuple. *)
Inductive Value : Type :=
| VText (s : string)
| VInt (z : Z)
| VApprox.  (* a number the engine computed in floating point *)

Definition Tuple : Type := list Value.

Definition value_eqb (a b : Value) : bool :=
  match a, b with
  | VText s, VText t => String.eqb s t
  | VInt x, VInt y => Z.eqb x y
  | _, _ => false
  end.

(** [x in xs] on a list of strings. *)
Definition py_in (x : string) (xs : list string) : bool :=
  existsb (String.eqb x) xs.

(** [xs.remove(x)]: drops the first occurrence, [None] standing for the
    [ValueError] raised when there is none. *)
Fixpoint py_remove (x : string) (xs : list string) : option (list string) :=
  match xs with
  | [] => None
  | y :: ys =>
      if String.eqb y x then Some ys
      else option_map (cons y) (py_remove x ys)
  end.

(** [s.replace(" ", "_")]. *)
Fixpoint replace_spaces (s : string) : string :=
  match s with
  | EmptyString => EmptyString
  | String c s' =>
      String (if Ascii.eqb c " " then "_"%char else c) (replace_spaces s')
  end.

(** How an f-string renders [self.current_warehouse]. *)
Definition fmt_warehouse (w : option string) : string :=
  match w with
  | None => "None"
  | Some name => name
  end.

(** *** [int(s)] on a string

    Surrounding whitespace is stripped, one sign is allowed, and the digits
    may be grouped by single underscores.  Strings are ASCII here: the
    decimal digits and spaces of other scripts, which Python also accepts,
    do not occur.  The cap that recent interpreters put on the number of
    digits (4300 unless reconfigured) is not modelled. *)

Definition is_space (c : ascii) : bool :=
  let n := nat_of_ascii c in
  ((9 <=? n)%nat && (n <=? 13)%nat) || (n =? 32)%nat.

Fixpoint lstrip (s : string) : string :=
  match s with
  | EmptyString => EmptyString
  | String c s' => if is_space c then lstrip s' else s
  end.

Fixpoint rstrip (s : string) : string :=
  match s with
  | EmptyString => EmptyString
  | String c s' =>
      match rstrip s' with
      | EmptyString => if is_space c then EmptyString else String c EmptyString
      | r => String c r
      end
  end.

Definition digit_val (c : ascii) : option Z :=
  let n := nat_of_ascii c in
  if ((48 <=? n)%nat && (n <=? 57)%nat)%bool
  then Some (Z.of_nat (n - 48))
  else None.

(** [after_digit] tells whether the previous character was a digit: an
    underscore is legal only there, and the text must end on a digit. *)
Fixpoint digits (acc : Z) (after_digit : bool) (s : string) : option Z :=
  match s with
  | EmptyString => if after_digit then Some acc else None
  | String c s' =>
      match digit_val c with
      | Some d => digits (10 * acc + d) true s'
      | None =>
          if (Ascii.eqb c "_" && after_digit)%bool
          then digits acc false s'
          else None
      end
  end.

Definition py_int (s : string) : option Z :=
  match rstrip (lstrip s) with
  | String "+" r => digits 0 false r
  | String "-" r => option_map Z.opp (digits 0 false r)
  | t => digits 0 false t
  end.

(** ** The database *)

(** The engine's integers are 64-bit. *)
Definition int64 (z : Z) : bool :=
  (-9223372036854775808 <=? z) && (z <=? 9223372036854775807).

(** A stored quantity: an integer, or a number the engine computed in
    floating point (stored as REAL, or as the integer it happens to equal);
    which number is not recorded. *)
Inductive Num : Type :=
| Int (z : Z)
| Approx.

Coercion Int : Z >-> Num.

(** An integer as written in a statement: past 64 bits the engine reads it
    as a floating-point literal. *)
Definition num_lit (z : Z) : Num :=
  if int64 z then Int z else Approx.

(** [quantity + d]: exact while the operands and the sum fit in 64 bits,
    in floating point otherwise and ever after. *)
Definition num_add (a : Num) (d : Z) : Num :=
  match a with
  | Int x => if int64 d && int64 (x + d) then Int (x + d) else Approx
  | Approx => Approx
  end.

Definition value_of_num (a : Num) : Value :=
  match a with
  | Int z => VInt z
  | Approx => VApprox
  end.

(** A row of a warehouse table, in column order. *)
Record Row : Type := mkRow {
  name : string;
  id : Z;
  quantity : Num;
  other : string
}.

Definition tuple_of_row (r : Row) : Tuple :=
  [VText (name r); VInt (id r); value_of_num (quantity r); VText (other r)].

(** A table created by [add_warehouse]: its rows in rowid order and the
    largest id ever handed out by AUTOINCREMENT (its [sqlite_sequence]
    entry). *)
Record Table : Type := mkTable {
  rows : list Row;
  seq : Z
}.

(** The database file: the warehouse tables in creation order, and whether
    the engine's own [sqlite_sequence] table has been created yet (it is,
    together with the first AUTOINCREMENT table, and is never dropped). *)
Record Store : Type := mkStore {
  tables : list (string * Table);
  has_sequence : bool
}.

Definition empty_store : Store := mkStore [] false.

(** The right-hand side of [WHERE id = {id}]: the caller interpolates either
    a string as received or an [int] it has converted. *)
Inductive IdArg : Type :=
| Raw (s : string)
| Lit (z : Z).

(** The statements sent through [__execute_query]. *)
Inductive Statement : Type :=
| CreateTable (tbl : string)
| InsertSelect (dst src : string)
| UpdateZero (tbl : string)
| DropTable (tbl : string)
| InsertItem (tbl item_name : string) (qty : Z) (item_other : string)
| UpdateAdd (tbl : string) (qty item_id : Z)
| UpdateItem (tbl item_name : string) (item_id qty : Z) (item_other : string)
             (old_id : Z)
| DeleteWhere (tbl : string) (item_id : IdArg).

(** The queries sent through [__execute_read_query]. *)
Inductive Select : Type :=
| SelectTables
| SelectAll (tbl : string)
| SelectWhere (tbl : string) (item_id : IdArg)
| CountWhere (tbl : string) (item_id : IdArg).

(** What the engine's parser makes of interpolated text.  A text in a
    table position is a table name or is refused ([None]); a text after
    [id =] is a condition on rows or is refused.  A text between quotes is
    a text value ([text_lit]); when it is not, it either closes the quote
    and makes another statement of the one it stands in ([rewrites]: given
    the statement as issued and the database, the table that statement's
    table becomes, if the engine accepts it), or is refused. *)
Record Lexer : Type := mkLexer {
  table_ref : string -> option string;      (* after CREATE TABLE, FROM, INTO, UPDATE *)
  text_lit : string -> option string;       (* between single quotes *)
  id_expr : string -> option (Row -> bool); (* the condition [id = <text>] *)
  rewrites : string -> option (Statement -> Store -> option Table)
}.

Definition sequence_name : string := "sqlite_sequence".

Fixpoint lookup (k : string) (ts : list (string * Table)) : option Table :=
  match ts with
  | [] => None
  | (k', t) :: ts' => if String.eqb k' k then Some t else lookup k ts'
  end.

Fixpoint update (k : string) (t : Table) (ts : list (string * Table))
  : list (string * Table) :=
  match ts with
  | [] => []
  | (k', t') :: ts' =>
      if String.eqb k' k then (k', t) :: ts' else (k', t') :: update k t ts'
  end.

Fixpoint drop (k : string) (ts : list (string * Table))
  : list (string * Table) :=
  match ts with
  | [] => []
  | (k', t') :: ts' =>
      if String.eqb k' k then ts' else (k', t') :: drop k ts'
  end.

Definition has_id (z : Z) (rs : list Row) : bool :=
  existsb (fun r => id r =? z) rs.

Definition max_id (rs : list Row) : Z :=
  fold_right (fun r m => Z.max (id r) m) 0 rs.

(** Rows are kept in rowid order: a row goes before the first larger id. *)
Fixpoint place (r : Row) (rs : list Row) : list Row :=
  match rs with
  | [] => [r]
  | r' :: rs' => if id r <? id r' then r :: rs else r' :: place r rs'
  end.

Definition set_quantity (q : Num) (r : Row) : Row :=
  mkRow (name r) (id r) q (other r).

(** Ids strictly increase along the rows: they are unique and the rows are
    in rowid order, as a PRIMARY KEY column keeps them. *)
Fixpoint ordered (rs : list Row) : bool :=
  match rs with
  | [] => true
  | r :: rs' => forallb (fun r' => id r <? id r') rs' && ordered rs'
  end.

(** A text between quotes, as the engine takes it. *)
Inductive Quoted : Type :=
| Plain (v : string)
| Rewritten (f : Statement -> Store -> option Table)
| Refused.

Section Engine.

Variable lx : Lexer.

Definition condition (a : IdArg) : option (Row -> bool) :=
  match a with
  | Raw s => id_expr lx s
  | Lit z => Some (fun r => id r =? z)
  end.

(** The table a text denotes, if the text is accepted and the table
    exists: its key and its contents. *)
Definition resolve (tbl : string) (s : Store) : option (string * Table) :=
  match table_ref lx tbl with
  | None => None
  | Some k =>
      match lookup k (tables s) with
      | None => None
      | Some t => Some (k, t)
      end
  end.

Definition store_table (k : string) (t : Table) (s : Store) : Store :=
  mkStore (update k t (tables s)) (has_sequence s).

Definition quoted (text : string) : Quoted :=
  match text_lit lx text with
  | Some v => Plain v
  | None =>
      match rewrites lx text with
      | Some f => Rewritten f
      | None => Refused
      end
  end.

(** The statement a quoted text has rewritten: the engine still keeps the
    ids of the table unique and its rows in id order, or fails. *)
Definition rewritten (k : string) (f : Statement -> Store -> option Table)
           (q : Statement) (s : Store) : option Store :=
  match f q s with
  | Some t' => if ordered (rows t') then Some (store_table k t' s) else None
  | None => None
  end.

(** One statement, run to completion or rejected with the store as it
    was. *)
Definition exec (q : Statement) (s : Store) : option Store :=
  match q with
  | CreateTable tbl =>
      match table_ref lx tbl with
      | None => None
      | Some k =>
          match lookup k (tables s) with
          | Some _ => None
          | None => Some (mkStore (tables s ++ [(k, mkTable [] 0)]) true)
          end
      end
  | InsertSelect dst src =>
      match resolve dst s, resolve src s with
      | Some (kd, td), Some (_, ts) =>
          if existsb (fun r => has_id (id r) (rows td)) (rows ts)
          then None
          else Some (store_table kd
                       (mkTable (fold_left (fun acc r => place r acc)
                                           (rows ts) (rows td))
                                (Z.max (seq td) (max_id (rows ts))))
                       s)
      | _, _ => None
      end
  | UpdateZero tbl =>
      match resolve tbl s with
      | Some (k, t) =>
          Some (store_table k (mkTable (map (set_quantity 0) (rows t)) (seq t)) s)
      | None => None
      end
  | DropTable tbl =>
      match resolve tbl s with
      | Some (k, _) => Some (mkStore (drop k (tables s)) (has_sequence s))
      | None => None
      end
  | InsertItem tbl n q o =>
      match resolve tbl s, quoted n, quoted o with
      | Some (k, t), Plain n', Plain o' =>
          let fresh := Z.max (seq t) (max_id (rows t)) + 1 in
          if int64 fresh then
            Some (store_table k
                    (mkTable (rows t ++ [mkRow n' fresh (num_lit q) o']) fresh)
                    s)
          else None
      | Some (k, _), Rewritten f, _ => rewritten k f (InsertItem tbl n q o) s
      | Some (k, _), Plain _, Rewritten f =>
          rewritten k f (InsertItem tbl n q o) s
      | _, _, _ => None
      end
  | UpdateAdd tbl q z =>
      match resolve tbl s with
      | Some (k, t) =>
          Some (store_table k
                  (mkTable (map (fun r => if id r =? z
                                          then set_quantity
                                                 (num_add (quantity r) q) r
                                          else r) (rows t))
                           (seq t))
                  s)
      | None => None
      end
  | UpdateItem tbl n z q o old =>
      match resolve tbl s, quoted n, quoted o with
      | Some (k, t), Plain n', Plain o' =>
          if has_id old (rows t) then
            let rest := filter (fun r => negb (id r =? old)) (rows t) in
            if int64 z && negb (has_id z rest)
            then Some (store_table k
                         (mkTable (place (mkRow n' z (num_lit q) o') rest)
                                  (seq t))
                         s)
            else None
          else Some s
      | Some (k, _), Rewritten f, _ =>
          rewritten k f (UpdateItem tbl n z q o old) s
      | Some (k, _), Plain _, Rewritten f =>
          rewritten k f (UpdateItem tbl n z q o old) s
      | _, _, _ => None
      end
  | DeleteWhere tbl a =>
      match resolve tbl s, condition a with
      | Some (k, t), Some c =>
          Some (store_table k (mkTable (filter (fun r => negb (c r)) (rows t)) (seq t)) s)
      | _, _ => None
      end
  end.

(** The names in the catalogue [sqlite_master].  Where the bookkeeping
    table stands among them varies with the history of the file; it is put
    last here, and [init] removes it wherever it stands. *)
Definition master_names (s : Store) : list string :=
  map fst (tables s) ++ (if has_sequence s then [sequence_name] else []).

Definition fetch (q : Select) (s : Store) : option (list Tuple) :=
  match q with
  | SelectTables => Some (map (fun n => [VText n]) (master_names s))
  | SelectAll tbl =>
      match resolve tbl s with
      | Some (_, t) => Some (map tuple_of_row (rows t))
      | None => None
      end
  | SelectWhere tbl a =>
      match resolve tbl s, condition a with
      | Some (_, t), Some c => Some (map tuple_of_row (filter c (rows t)))
      | _, _ => None
      end
  | CountWhere tbl a =>
      match resolve tbl s, condition a with
      | Some (_, t), Some c =>
          Some [[VInt (Z.of_nat (List.length (filter c (rows t))))]]
      | _, _ => None
      end
  end.

End Engine.

(** ** The manager object *)

(** The dictionary staged by [edit_item]. *)
Record EditData : Type := mkEditData {
  ed_name : Value;
  ed_id : Value;
  ed_quantity : Value;
  ed_other : Value
}.

(** The attributes of a [WarehouseManager]; [connection] is shown by the
    database it is connected to. *)
Record Manager : Type := mkManager {
  connection : Store;
  current_warehouse : option string;
  warehouses : list string;
  error_message : option string;
  edit_item_data : option EditData
}.

(** The dictionary returned by [get_warehouse_data], key by key. *)
Record WarehouseData : Type := mkWarehouseData {
  d_current_warehouse : option string;
  d_warehouses : list string;
  d_items : option (list Tuple);
  d_edit_item_data : option EditData;
  d_error_message : option string
}.

Definition with_connection (db : Store) (m : Manager) : Manager :=
  mkManager db (current_warehouse m) (warehouses m) (error_message m)
            (edit_item_data m).

Definition with_current_warehouse (w : option string) (m : Manager) : Manager :=
  mkManager (connection m) w (warehouses m) (error_message m)
            (edit_item_data m).

Definition with_warehouses (ws : list string) (m : Manager) : Manager :=
  mkManager (connection m) (current_warehouse m) ws (error_message m)
            (edit_item_data m).

Definition with_error_message (e : option string) (m : Manager) : Manager :=
  mkManager (connection m) (current_warehouse m) (warehouses m) e
            (edit_item_data m).

Definition with_edit_item_data (d : option EditData) (m : Manager) : Manager :=
  mkManager (connection m) (current_warehouse m) (warehouses m)
            (error_message m) d.

(** *** Method bodies: state and exceptions *)

(** A call either returns a value or raises; both leave an object behind. *)
Inductive Outcome (A : Type) : Type :=
| Returns (a : A) (m : Manager)
| Raises (e : PyExn) (m : Manager).

Arguments Returns {A} a m.
Arguments Raises {A} e m.

Definition Method (A : Type) : Type := Manager -> Outcome A.

Definition ret {A} (a : A) : Method A := fun m => Returns a m.

Definition raise {A} (e : PyExn) : Method A := fun m => Raises e m.

Definition bind {A B} (c : Method A) (f : A -> Method B) : Method B :=
  fun m =>
    match c m with
    | Returns a m' => f a m'
    | Raises e m' => Raises e m'
    end.

Definition self : Method Manager := fun m => Returns m m.

Definition assign (f : Manager -> Manager) : Method unit :=
  fun m => Returns tt (f m).

Notation "x <- c ;; k" := (bind c (fun x => k))
  (at level 61, c at next level, right associativity).
Notation "c ;; k" := (bind c (fun _ => k))
  (at level 61, right associativity).

(** The object a call leaves behind. *)
Definition after {A} (o : Outcome A) : Manager :=
  match o with
  | Returns _ m => m
  | Raises _ m => m
  end.

(** [xs[i]] on a list or tuple. *)
Definition getitem {A} (xs : list A) (i : nat) : Method A :=
  match nth_error xs i with
  | Some x => ret x
  | None => raise IndexError
  end.

(** [xs[i]] where [xs] may be [None]. *)
Definition getitem_opt {A} (xs : option (list A)) (i : nat) : Method A :=
  match xs with
  | Some l => getitem l i
  | None => raise TypeError
  end.

(** Where a database path may lead. *)
Inductive Location : Type :=
| NoFile                     (* nothing there yet: a new database is created *)
| DatabaseFile (db : Store)  (* an existing database *)
| Unopenable.                (* [sqlite3.connect] fails *)

Definition connect (path : Location) : option Store :=
  match path with
  | NoFile => Some empty_store
  | DatabaseFile db => Some db
  | Unopenable => None
  end.

(** The first cell of each fetched tuple, as the names they are. *)
Fixpoint first_column (ts : list Tuple) : option (list string) :=
  match ts with
  | [] => Some []
  | (VText n :: _) :: ts' => option_map (cons n) (first_column ts')
  | _ => None
  end.

Section Methods.

Variable lx : Lexer.

(** [__execute_query]: an [sqlite3.Error] is printed and swallowed. *)
Definition execute_query (q : Statement) : Method unit :=
  fun m =>
    match exec lx q (connection m) with
    | Some db => Returns tt (with_connection db m)
    | None => Returns tt m
    end.

(** [__execute_read_query]: the fetched tuples, or [None] after an
    [sqlite3.Error]. *)
Definition execute_read_query (q : Select) : Method (option (list Tuple)) :=
  fun m => Returns (fetch lx q (connection m)) m.

(** [__init__]: there is an object only if the constructor returns. *)
Definition init (path : Location) : PyExn + Manager :=
  match connect path with
  | None => inl AttributeError
  | Some db =>
      match fetch lx SelectTables db with
      | None => inl TypeError
      | Some result =>
          match first_column result with
          | None => inl IndexError
          | Some names =>
              match py_remove sequence_name names with
              | None => inl ValueError
              | Some ws => inr (mkManager db None ws None None)
              end
          end
      end
  end.

Definition get_items : Method (option (list Tuple)) :=
  m <- self ;;
  match current_warehouse m with
  | None => ret None
  | Some w => execute_read_query (SelectAll w)
  end.

Definition get_warehouse_data : Method WarehouseData :=
  m <- self ;;
  items <- get_items ;;
  let warehouse_data :=
    mkWarehouseData (current_warehouse m) (warehouses m) items
                    (edit_item_data m) (error_message m) in
  assign (with_edit_item_data None) ;;
  assign (with_error_message None) ;;
  ret warehouse_data.

(** *** Warehouse methods *)

Definition add_warehouse (warehouse_name : string) (copy_items : bool)
  : Method unit :=
  let warehouse_name := replace_spaces warehouse_name in
  m <- self ;;
  if py_in warehouse_name (warehouses m) then
    assign (with_error_message (Some "Warehouse Name must be unique"))
  else
    execute_query (CreateTable warehouse_name) ;;
    match copy_items, current_warehouse m with
    | true, Some w =>
        execute_query (InsertSelect warehouse_name w) ;;
        execute_query (UpdateZero warehouse_name)
    | _, _ => ret tt
    end ;;
    assign (with_current_warehouse (Some warehouse_name)) ;;
    m' <- self ;;
    assign (with_warehouses (warehouses m' ++ [warehouse_name])).

Definition select_warehouse (warehouse_name : string) : Method unit :=
  m <- self ;;
  if negb (py_in warehouse_name (warehouses m)) then
    assign (with_error_message (Some (warehouse_name ++ " is not a warehouse")))
  else
    match current_warehouse m with
    | Some w =>
        if String.eqb warehouse_name w then ret tt
        else assign (with_current_warehouse (Some warehouse_name))
    | None => assign (with_current_warehouse (Some warehouse_name))
    end.

Definition delete_warehouse : Method unit :=
  m <- self ;;
  match current_warehouse m with
  | None => ret tt
  | Some w =>
      match py_remove w (warehouses m) with
      | None => raise ValueError
      | Some ws =>
          assign (with_warehouses ws) ;;
          execute_query (DropTable w) ;;
          assign (with_current_warehouse None)
      end
  end.

(** *** Item methods *)

Definition add_item (name quantity other : string) : Method unit :=
  m <- self ;;
  match current_warehouse m with
  | None =>
      assign (with_error_message
                (Some "Add or select a warehouse to add an item"))
  | Some w =>
      match py_int quantity with
      | None =>
          assign (with_error_message (Some "'Quantity' must be an interger"))
      | Some quantity => execute_query (InsertItem w name quantity other)
      end
  end.

Definition id_exists (id : IdArg) : Method bool :=
  m <- self ;;
  rows <- execute_read_query
            (CountWhere (fmt_warehouse (current_warehouse m)) id) ;;
  row <- getitem_opt rows 0 ;;
  count <- getitem row 0 ;;
  ret (negb (value_eqb count (VInt 0))).

Definition edit_quantity (id quantity : string) : Method unit :=
  match py_int id, py_int quantity with
  | Some id, Some quantity =>
      found <- id_exists (Lit id) ;;
      if negb found then
        assign (with_error_message (Some "Item ID does not exist!"))
      else
        m <- self ;;
        execute_query
          (UpdateAdd (fmt_warehouse (current_warehouse m)) quantity id)
  | _, _ =>
      assign (with_error_message
                (Some "'Quantity' and ID must be an intergers."))
  end.

Definition edit_item (id : string) : Method unit :=
  found <- id_exists (Raw id) ;;
  if negb found then
    assign (with_error_message (Some "Item ID does not exist"))
  else
    m <- self ;;
    rows <- execute_read_query
              (SelectWhere (fmt_warehouse (current_warehouse m)) (Raw id)) ;;
    data <- getitem_opt rows 0 ;;
    d0 <- getitem data 0 ;;
    d1 <- getitem data 1 ;;
    d2 <- getitem data 2 ;;
    d3 <- getitem data 3 ;;
    assign (with_edit_item_data (Some (mkEditData d0 d1 d2 d3))).

Definition save_edit (name id quantity other old_id : string) : Method unit :=
  match py_int quantity with
  | None =>
      assign (with_error_message (Some "'Quantity' must be an interger."))
  | Some quantity =>
      match py_int id, py_int old_id with
      | Some id, Some old_id =>
          clash <- (if negb (id =? old_id) then id_exists (Lit id)
                    else ret false) ;;
          if clash then
            assign (with_error_message (Some "IDs must be unique."))
          else
            m <- self ;;
            execute_query
              (UpdateItem (fmt_warehouse (current_warehouse m))
                          name id quantity other old_id)
      | _, _ => assign (with_error_message (Some "IDs must be integers."))
      end
  end.

Definition delete_item (id : string) : Method unit :=
  m <- self ;;
  execute_query
    (DeleteWhere (fmt_warehouse (current_warehouse m)) (Raw id)).

End Methods.

(** ** A lexer to run examples with

    It accepts a plain identifier as a table name, quote-free text between
    quotes, and a decimal integer after [id =], and rejects everything
    else.  (Reserved words are not singled out; no example uses one.) *)

Definition is_letter (c : ascii) : bool :=
  let n := nat_of_ascii c in
  ((65 <=? n)%nat && (n <=? 90)%nat) || ((97 <=? n)%nat && (n <=? 122)%nat)
  || (n =? 95)%nat.

Definition is_digit (c : ascii) : bool :=
  let n := nat_of_ascii c in (48 <=? n)%nat && (n <=? 57)%nat.

Fixpoint all_chars (p : ascii -> bool) (s : string) : bool :=
  match s with
  | EmptyString => true
  | String c s' => p c && all_chars p s'
  end.

Definition plain_identifier (s : string) : bool :=
  match s with
  | EmptyString => false
  | String c s' =>
      is_letter c && all_chars (fun x => is_letter x || is_digit x) s'
  end.

Definition plain_decimal (s : string) : option Z :=
  match s with
  | String "-" r =>
      if all_chars is_digit r then option_map Z.opp (digits 0 false r) else None
  | _ => if all_chars is_digit s then digits 0 false s else None
  end.

Definition sample_lexer : Lexer :=
  mkLexer
    (fun s => if plain_identifier s then Some s else None)
    (fun s => if all_chars (fun c => negb (Ascii.eqb c "'")) s
              then Some s else None)
    (fun s => option_map (fun z r => id r =? z) (plain_decimal s))
    (fun _ => None).

(** ** Calls and reachable objects *)

(** One call of a public method, as the web layer makes them. *)
Inductive Call : Type :=
| GetWarehouseData
| AddWarehouse (warehouse_name : string) (copy_items : bool)
| SelectWarehouse (warehouse_name : string)
| DeleteWarehouse
| AddItem (name quantity other : string)
| EditQuantity (id quantity : string)
| EditItem (id : string)
| SaveEdit (name id quantity other old_id : string)
| DeleteItem (id : string).

(** The object after a call, whether the call returned or raised. *)
Definition step (lx : Lexer) (c : Call) (m : Manager) : Manager :=
  match c with
  | GetWarehouseData => after (get_warehouse_data lx m)
  | AddWarehouse n b => after (add_warehouse lx n b m)
  | SelectWarehouse n => after (select_warehouse n m)
  | DeleteWarehouse => after (delete_warehouse lx m)
  | AddItem n q o => after (add_item lx n q o m)
  | EditQuantity i q => after (edit_quantity lx i q m)
  | EditItem i => after (edit_item lx i m)
  | SaveEdit n i q o old => after (save_edit lx n i q o old m)
  | DeleteItem i => after (delete_item lx i m)
  end.

Inductive reachable (lx : Lexer) : Manager -> Prop :=
| reach_init path m :
    init lx path = inr m -> reachable lx m
| reach_step c m :
    reachable lx m -> reachable lx (step lx c m).

(** [current_warehouse] is [None] or one of [warehouses]. *)
Definition selection_known (m : Manager) : Prop :=
  match current_warehouse m with
  | None => True
  | Some w => In w (warehouses m)
  end.

(** The selected warehouse [w] is backed by the table [t] stored under [k]. *)
Definition selected (lx : Lexer) (m : Manager) (w k : string) (t : Table)
  : Prop :=
  current_warehouse m = Some w /\
  table_ref lx w = Some k /\
  lookup k (tables (connection m)) = Some t.


(** The dictionary [edit_item] stages for a row. *)
Definition edit_data_of (r : Row) : EditData :=
  mkEditData (VText (name r)) (VInt (id r)) (value_of_num (quantity r))
             (VText (other r)).

(** An object right after opening a database that already has its
    bookkeeping table and no warehouse. *)
Definition blank : Manager := mkManager (mkStore [] true) None [] None None.

(** An object with the warehouse [A] selected and two items in it. *)
Definition stocked : Manager :=
  mkManager
    (mkStore [("A", mkTable [mkRow "Bolt" 1 10 "steel"; mkRow "Nut" 2 5 ""] 2)]
             true)
    (Some "A") ["A"] None None.

(** An object with the warehouse [A] selected and a second warehouse [B]. *)
Definition stocked2 : Manager :=
  mkManager
    (mkStore [("A", mkTable [mkRow "Bolt" 1 10 "steel"; mkRow "Nut" 2 5 ""] 2);
              ("B", mkTable [mkRow "Bolt" 1 0 "steel"; mkRow "Pin" 3 40 ""] 3)]
             true)
    (Some "A") ["A"; "B"] None None.



(** Adding [d] to the quantity of the items with id [z], as integers. *)
Definition shifted (z d : Z) (r : Row) : Row :=
  if id r =? z then
    match quantity r with
    | Int x => mkRow (name r) (id r) (Int (x + d)) (other r)
    | Approx => r
    end
  else r.


(** The value a call returned, if it returned. *)
Definition result {A} (o : Outcome A) : option A :=
  match o with
  | Returns a _ => Some a
  | Raises _ _ => None
  end.


(** A method body that never touches [current_warehouse] or [warehouses],
    whether it returns or raises. *)
Definition keeps_session {A} (c : Method A) : Prop :=
  forall m,
    current_warehouse (after (c m)) = current_warehouse m /\
    warehouses (after (c m)) = warehouses m.

(** The sample lexer made to refuse, as the engine does, table names that
    begin with [sqlite_]. *)
Definition strict_lexer : Lexer :=
  mkLexer
    (fun s => if plain_identifier s && negb (String.prefix "sqlite_" s)
              then Some s else None)
    (text_lit sample_lexer)
    (id_expr sample_lexer)
    (rewrites sample_lexer).

(** ** Well-formed databases and sessions *)


(** A property of the database that a method body carries from the object
    it starts on to the object it leaves, returning or raising. *)
Definition carries {A} (P : Store -> Prop) (c : Method A) : Prop :=
  forall m, P (connection m) -> P (connection (after (c m))).

(** An attribute (or any reading [f] of the object) that a method body
    leaves as it was, returning or raising. *)
Definition unchanged {A X} (f : Manager -> X) (c : Method A) : Prop :=
  forall m, f (after (c m)) = f m.


(** The calls that work on the items of the selected warehouse. *)
Definition item_call (c : Call) : bool :=
  match c with
  | AddItem _ _ _ | EditQuantity _ _ | EditItem _ | SaveEdit _ _ _ _ _
  | DeleteItem _ => true
  | _ => false
  end.

(** ** The web layer ([app.py])

    Each route reads the submitted form as a dictionary, calls one method
    of the one manager object [wm], and redirects to the main page. *)

(** [request.form.to_dict()]. *)
Definition Form : Type := list (string * string).

(** [output[key]], [None] standing for the [KeyError]. *)
Fixpoint form_get (key : string) (output : Form) : option string :=
  match output with
  | [] => None
  | (k, v) :: output' => if String.eqb k key then Some v else form_get key output'
  end.

(** [key in output]. *)
Definition form_has (key : string) (output : Form) : bool :=
  match form_get key output with
  | Some _ => true
  | None => false
  end.

(** [s.split(',')]. *)
Fixpoint split_comma (s : string) : list string :=
  match s with
  | EmptyString => [EmptyString]
  | String c s' =>
      if Ascii.eqb c "," then EmptyString :: split_comma s'
      else
        match split_comma s' with
        | h :: t => String c h :: t
        | [] => [String c EmptyString]
        end
  end.

(** The number of commas in a text. *)
Fixpoint commas (s : string) : nat :=
  match s with
  | EmptyString => O
  | String c s' => if Ascii.eqb c "," then S (commas s') else commas s'
  end.

(** What can end a route early. *)
Inductive RouteExn : Type :=
| KeyError                    (* a field missing from the form *)
| UnpackError                 (* [id, count = ...] on a list not of length 2 *)
| MethodRaised (e : PyExn).   (* the exception of the manager method *)

(** A route either redirects to the main page or fails; [wm] lives on. *)
Inductive Handled : Type :=
| Redirected (wm : Manager)
| Failed (e : RouteExn) (wm : Manager).

Definition redirect (o : Outcome unit) : Handled :=
  match o with
  | Returns _ wm => Redirected wm
  | Raises e wm => Failed (MethodRaised e) wm
  end.

Definition wm_after (h : Handled) : Manager :=
  match h with
  | Redirected wm => wm
  | Failed _ wm => wm
  end.

Module App.

Section Routes.

Variable lx : Lexer.

Definition home (wm : Manager) : Outcome WarehouseData :=
  get_warehouse_data lx wm.

Definition add_warehouse (output : Form) (wm : Manager) : Handled :=
  match form_get "warehouse_name" output with
  | None => Failed KeyError wm
  | Some name =>
      let copy_items := form_has "copy_items" output in
      redirect (add_warehouse lx name copy_items wm)
  end.

Definition select_warehouse (output : Form) (wm : Manager) : Handled :=
  match form_get "submit_button" output with
  | None => Failed KeyError wm
  | Some warehouse_name => redirect (select_warehouse warehouse_name wm)
  end.

Definition delete_warehouse (wm : Manager) : Handled :=
  redirect (delete_warehouse lx wm).

Definition add_item (output : Form) (wm : Manager) : Handled :=
  match form_get "item_name" output with
  | None => Failed KeyError wm
  | Some name =>
      match form_get "quantity" output with
      | None => Failed KeyError wm
      | Some quantity =>
          match form_get "other" output with
          | None => Failed KeyError wm
          | Some other => redirect (add_item lx name quantity other wm)
          end
      end
  end.

Definition edit_quantity (output : Form) (wm : Manager) : Handled :=
  match form_get "submit_button" output with
  | None => Failed KeyError wm
  | Some button =>
      match split_comma button with
      | [id; count] => redirect (edit_quantity lx id count wm)
      | _ => Failed UnpackError wm
      end
  end.

Definition edit_item (output : Form) (wm : Manager) : Handled :=
  match form_get "submit_button" output with
  | None => Failed KeyError wm
  | Some id => redirect (edit_item lx id wm)
  end.

Definition save_edit (output : Form) (wm : Manager) : Handled :=
  match form_get "item_name" output with
  | None => Failed KeyError wm
  | Some item_name =>
      match form_get "id" output with
      | None => Failed KeyError wm
      | Some id =>
          match form_get "quantity" output with
          | None => Failed KeyError wm
          | Some quantity =>
              match form_get "other" output with
              | None => Failed KeyError wm
              | Some other =>
                  match form_get "old_id" output with
                  | None => Failed KeyError wm
                  | Some old_id =>
                      redirect (save_edit lx item_name id quantity other
                                          old_id wm)
                  end
              end
          end
      end
  end.

Definition delete_item (output : Form) (wm : Manager) : Handled :=
  match form_get "submit_button" output with
  | None => Failed KeyError wm
  | Some id => redirect (delete_item lx id wm)
  end.

End Routes.

End App.

(** ** Properties *)

(** *** Records and the table list *)

Lemma with_connection_same m : with_connection (connection m) m = m.
Proof. now destruct m. Qed.





Lemma lookup_update_other k k' t' ts :
  k' <> k -> lookup k' (update k t' ts) = lookup k' ts.
Proof.
  intros Hne. induction ts as [|[k0 t0] ts IH]; simpl; [reflexivity|].
  destruct (String.eqb k0 k) eqn:E; simpl.
  - apply String.eqb_eq in E. subst k0.
    destruct (String.eqb k k') eqn:E'; [|reflexivity].
    apply String.eqb_eq in E'. congruence.
  - now rewrite IH.
Qed.



Lemma lookup_app_other k k' t ts :
  k' <> k -> lookup k' (ts ++ [(k, t)]) = lookup k' ts.
Proof.
  intros Hne. induction ts as [|[k0 t0] ts IH]; simpl.
  - destruct (String.eqb k k') eqn:E; [|reflexivity].
    apply String.eqb_eq in E. congruence.
  - now rewrite IH.
Qed.

(** The count fetched by [id_exists] is non-zero exactly when some row passes the condition. *)
Lemma count_nonzero (c : Row -> bool) rs :
  negb (Z.of_nat (List.length (filter c rs)) =? 0) = existsb c rs.
Proof.
  induction rs as [|r rs IH]; simpl; [reflexivity|].
  destruct (c r); simpl; [|exact IH].
  destruct (Z.eqb_spec (Z.pos (Pos.of_succ_nat (List.length (filter c rs)))) 0);
    [lia|reflexivity].
Qed.



Lemma py_in_In x xs : py_in x xs = true <-> In x xs.
Proof.
  unfold py_in. rewrite existsb_exists. split.
  - intros [y [Hy E]]. apply String.eqb_eq in E. now subst.
  - intros H. exists x. split; [exact H|apply String.eqb_refl].
Qed.

(** *** Calls that leave the selection alone *)

Lemma keeps_ret {A} (a : A) : keeps_session (ret a).
Proof. now intros m. Qed.

Lemma keeps_raise {A} e : keeps_session (@raise A e).
Proof. now intros m. Qed.

Lemma keeps_self : keeps_session self.
Proof. now intros m. Qed.

Lemma keeps_bind {A B} (c : Method A) (f : A -> Method B) :
  keeps_session c -> (forall a, keeps_session (f a)) ->
  keeps_session (bind c f).
Proof.
  intros Hc Hf m. unfold bind. specialize (Hc m).
  destruct (c m) as [a m'|e m']; simpl in *; [|exact Hc].
  destruct (Hf a m') as [H1 H2]. destruct Hc as [H3 H4].
  split; congruence.
Qed.

Lemma keeps_error e : keeps_session (assign (with_error_message e)).
Proof. now intros m. Qed.

Lemma keeps_edit d : keeps_session (assign (with_edit_item_data d)).
Proof. now intros m. Qed.

Lemma keeps_execute_query lx q : keeps_session (execute_query lx q).
Proof. intros m. unfold execute_query. now destruct (exec lx q (connection m)). Qed.

Lemma keeps_execute_read_query lx q : keeps_session (execute_read_query lx q).
Proof. now intros m. Qed.

Lemma keeps_getitem {A} (xs : list A) i : keeps_session (getitem xs i).
Proof. intros m. unfold getitem. now destruct (nth_error xs i). Qed.

Lemma keeps_getitem_opt {A} (xs : option (list A)) i :
  keeps_session (getitem_opt xs i).
Proof. destruct xs; [apply keeps_getitem|apply keeps_raise]. Qed.

Create HintDb session.
#[export] Hint Resolve keeps_ret keeps_raise keeps_self keeps_error keeps_edit
  keeps_execute_query keeps_execute_read_query keeps_getitem keeps_getitem_opt
  : session.

Ltac keeps :=
  repeat first
    [ apply keeps_bind; [|intros]
    | solve [auto with session]
    | match goal with
      | |- keeps_session (match ?x with _ => _ end) => destruct x
      end ].

Lemma keeps_id_exists lx a : keeps_session (id_exists lx a).
Proof. unfold id_exists. keeps. Qed.

#[export] Hint Resolve keeps_id_exists : session.

Lemma keeps_get_warehouse_data lx : keeps_session (get_warehouse_data lx).
Proof. unfold get_warehouse_data, get_items. keeps. Qed.

Lemma keeps_add_item lx n q o : keeps_session (add_item lx n q o).
Proof. unfold add_item. keeps. Qed.

Lemma keeps_edit_quantity lx i q : keeps_session (edit_quantity lx i q).
Proof. unfold edit_quantity. keeps. Qed.

Lemma keeps_edit_item lx i : keeps_session (edit_item lx i).
Proof. unfold edit_item. keeps. Qed.

Lemma keeps_save_edit lx n i q o old : keeps_session (save_edit lx n i q o old).
Proof. unfold save_edit. keeps. Qed.

Lemma keeps_delete_item lx i : keeps_session (delete_item lx i).
Proof. unfold delete_item. keeps. Qed.

Lemma keeps_selection_known {A} (c : Method A) m :
  keeps_session c -> selection_known m -> selection_known (after (c m)).
Proof.
  intros Hc H. destruct (Hc m) as [H1 H2]. unfold selection_known in *.
  now rewrite H1, H2.
Qed.

(** *** The three warehouse methods *)

Lemma execute_query_session lx q m :
  exists db, execute_query lx q m = Returns tt (with_connection db m).
Proof.
  unfold execute_query. destruct (exec lx q (connection m)) as [db|].
  - now exists db.
  - exists (connection m). now rewrite with_connection_same.
Qed.

Lemma add_warehouse_selection lx n b m :
  selection_known m -> selection_known (after (add_warehouse lx n b m)).
Proof.
  intros H. unfold add_warehouse, bind, self, assign, ret.
  destruct (py_in (replace_spaces n) (warehouses m)); [exact H|].
  destruct (execute_query_session lx (CreateTable (replace_spaces n)) m)
    as [db1 ->].
  assert (Hlast : forall m', selection_known
            (with_warehouses
               (warehouses (with_current_warehouse (Some (replace_spaces n)) m')
                ++ [replace_spaces n])
               (with_current_warehouse (Some (replace_spaces n)) m'))).
  { intros m'. unfold selection_known. simpl. apply in_or_app. right. now left. }
  destruct b; [destruct (current_warehouse m) as [w|]|];
    try apply Hlast.
  destruct (execute_query_session lx (InsertSelect (replace_spaces n) w)
              (with_connection db1 m)) as [db2 ->].
  destruct (execute_query_session lx (UpdateZero (replace_spaces n))
              (with_connection db2 (with_connection db1 m))) as [db3 ->].
  apply Hlast.
Qed.

Lemma select_warehouse_selection n m :
  selection_known m -> selection_known (after (select_warehouse n m)).
Proof.
  intros H. unfold select_warehouse, bind, self, assign, ret.
  destruct (py_in n (warehouses m)) eqn:E; simpl; [|exact H].
  apply py_in_In in E.
  destruct (current_warehouse m) as [w|] eqn:Ew.
  - destruct (String.eqb n w); simpl; [exact H|exact E].
  - exact E.
Qed.

Lemma delete_warehouse_selection lx m :
  selection_known m -> selection_known (after (delete_warehouse lx m)).
Proof.
  intros H. unfold delete_warehouse, bind, self, assign, ret, raise.
  destruct (current_warehouse m) as [w|] eqn:Ew.
  - destruct (py_remove w (warehouses m)) as [ws|]; simpl.
    + destruct (execute_query_session lx (DropTable w) (with_warehouses ws m))
        as [db ->].
      exact I.
    + exact H.
  - exact H.
Qed.

Lemma init_selection lx path m : init lx path = inr m -> selection_known m.
Proof.
  unfold init. intros H.
  destruct (connect path) as [db|]; [|discriminate].
  destruct (fetch lx SelectTables db) as [result|]; [|discriminate].
  destruct (first_column result) as [names|]; [|discriminate].
  destruct (py_remove sequence_name names) as [ws|]; [|discriminate].
  inversion H. exact I.
Qed.

Lemma step_selection lx c m :
  selection_known m -> selection_known (step lx c m).
Proof.
  intros H. destruct c; simpl.
  - now apply keeps_selection_known; [apply keeps_get_warehouse_data|].
  - now apply add_warehouse_selection.
  - now apply select_warehouse_selection.
  - now apply delete_warehouse_selection.
  - now apply keeps_selection_known; [apply keeps_add_item|].
  - now apply keeps_selection_known; [apply keeps_edit_quantity|].
  - now apply keeps_selection_known; [apply keeps_edit_item|].
  - now apply keeps_selection_known; [apply keeps_save_edit|].
  - now apply keeps_selection_known; [apply keeps_delete_item|].
Qed.

(** *** The selection invariant and duplicate names *)

(** C2.  [current_warehouse] is [None] or a member of [warehouses] in the
    object a constructor call returns, every method call keeps it so
    whether it returns or raises, and hence it is so in every object
    reachable by any sequence of calls. *)
Theorem selection_known_invariant lx :
  (forall path m, init lx path = inr m -> selection_known m)
  /\ (forall c m, selection_known m -> selection_known (step lx c m))
  /\ (forall m, reachable lx m -> selection_known m).
Proof.
  split; [exact (init_selection lx)|].
  split; [exact (step_selection lx)|].
  induction 1 as [path m Hinit|c m _ IH].
  - exact (init_selection lx path m Hinit).
  - exact (step_selection lx c m IH).
Qed.

Lemma selection_known_invariant_witness :
  selection_known
    (step sample_lexer (DeleteItem "1")
       (step sample_lexer (AddWarehouse "Main hall" false) blank)).
Proof.
  apply (proj2 (proj2 (selection_known_invariant sample_lexer))).
  apply reach_step. apply reach_step.
  apply (reach_init sample_lexer (DatabaseFile (mkStore [] true))).
  reflexivity.
Defined.

(** C6.  [add_warehouse] with a name whose normalised form is already in
    [warehouses] returns with [error_message] set to
    ["Warehouse Name must be unique"] and every other attribute, the
    database included, as it was. *)
Theorem add_warehouse_duplicate lx m warehouse_name copy_items :
  py_in (replace_spaces warehouse_name) (warehouses m) = true ->
  add_warehouse lx warehouse_name copy_items m =
    Returns tt (with_error_message (Some "Warehouse Name must be unique") m)
  /\ warehouses (after (add_warehouse lx warehouse_name copy_items m))
     = warehouses m
  /\ current_warehouse (after (add_warehouse lx warehouse_name copy_items m))
     = current_warehouse m
  /\ connection (after (add_warehouse lx warehouse_name copy_items m))
     = connection m.
Proof.
  intros H. unfold add_warehouse, bind, self, assign. rewrite H.
  repeat split.
Qed.

Lemma add_warehouse_duplicate_witness :
  add_warehouse sample_lexer "A" false
    (after (add_warehouse sample_lexer "A" false blank))
  = Returns tt
      (with_error_message (Some "Warehouse Name must be unique")
         (after (add_warehouse sample_lexer "A" false blank))).
Proof.
  apply (add_warehouse_duplicate sample_lexer
           (after (add_warehouse sample_lexer "A" false blank)) "A" false).
  reflexivity.
Defined.

(** *** What a selected warehouse gives the item methods *)

Lemma resolve_selected lx m w k t :
  selected lx m w k t -> resolve lx w (connection m) = Some (k, t).
Proof.
  intros (_ & Hk & Ht). unfold resolve. now rewrite Hk, Ht.
Qed.

Lemma id_exists_selected lx m w k t a c :
  selected lx m w k t -> condition lx a = Some c ->
  id_exists lx a m = Returns (existsb c (rows t)) m.
Proof.
  intros Hsel Hc. pose proof (resolve_selected _ _ _ _ _ Hsel) as Hr.
  destruct Hsel as (Hw & _ & _).
  unfold id_exists, bind, self, execute_read_query, fetch.
  rewrite Hw. simpl fmt_warehouse. rewrite Hr, Hc. simpl.
  now rewrite count_nonzero.
Qed.

Lemma add_item_unparsed lx m w n q o :
  current_warehouse m = Some w -> py_int q = None ->
  add_item lx n q o m =
    Returns tt (with_error_message (Some "'Quantity' must be an interger") m).
Proof.
  intros Hw Hq. unfold add_item, bind, self, assign. now rewrite Hw, Hq.
Qed.

Lemma first_column_names l :
  first_column (map (fun n => [VText n]) l) = Some l.
Proof.
  induction l as [|n l IH]; simpl; [reflexivity|]. now rewrite IH.
Qed.

Lemma py_remove_last x l :
  ~ In x l -> py_remove x (l ++ [x]) = Some l.
Proof.
  induction l as [|y l IH]; simpl; intros H.
  - now rewrite String.eqb_refl.
  - destruct (String.eqb y x) eqn:E.
    + apply String.eqb_eq in E. exfalso. apply H. now left.
    + rewrite IH; [reflexivity|]. intros Hin. apply H. now right.
Qed.

(** Opening a database that has its bookkeeping table: the warehouses are
    the user tables, in catalogue order. *)
Lemma init_existing lx db :
  has_sequence db = true ->
  ~ In sequence_name (map fst (tables db)) ->
  init lx (DatabaseFile db) =
    inr (mkManager db None (map fst (tables db)) None None).
Proof.
  intros Hs Hn. unfold init, connect, fetch, master_names. rewrite Hs.
  rewrite first_column_names, (py_remove_last _ _ Hn). reflexivity.
Qed.

(** Without a table to count in, [id_exists] subscripts [None]. *)
Lemma id_exists_no_table lx a m :
  fetch lx (CountWhere (fmt_warehouse (current_warehouse m)) a) (connection m)
    = None ->
  id_exists lx a m = Raises TypeError m.
Proof.
  intros H. unfold id_exists, bind, self, execute_read_query. now rewrite H.
Qed.

(** C1.  Not every method returns in every state: [blank] is what the
    constructor returns on a database with no warehouse, and on it
    [edit_quantity], [edit_item] and [save_edit] (with a changed id) raise
    [TypeError] out of [id_exists], which subscripts the [None] that
    [__execute_read_query] returns for the table named [None]. *)
Theorem item_methods_raise_unselected lx :
  init lx (DatabaseFile (mkStore [] true)) = inr blank /\
  edit_quantity lx "1" "1" blank = Raises TypeError blank /\
  edit_item lx "1" blank = Raises TypeError blank /\
  save_edit lx "Bolt" "2" "5" "steel" "1" blank = Raises TypeError blank.
Proof.
  assert (Hraise : forall a, id_exists lx a blank = Raises TypeError blank).
  { intros a. apply id_exists_no_table. simpl. unfold resolve.
    now destruct (table_ref lx "None"). }
  split; [reflexivity|].
  split; [|split].
  - unfold edit_quantity. change (py_int "1") with (Some 1).
    unfold bind. now rewrite Hraise.
  - unfold edit_item, bind. now rewrite Hraise.
  - unfold save_edit.
    change (py_int "5") with (Some 5). change (py_int "2") with (Some 2).
    change (py_int "1") with (Some 1). cbv beta iota.
    change (negb (2 =? 1)) with true. cbv iota.
    unfold bind. now rewrite Hraise.
Qed.

(** C5.  Where no file exists the constructor does not return: the new
    database has no [sqlite_sequence] table yet, so removing that name from
    the empty list of tables raises [ValueError]. *)
Theorem init_no_file_raises lx : init lx NoFile = inl ValueError.
Proof. reflexivity. Qed.

(** C7.  With a warehouse selected and a quantity that [int] rejects,
    [add_item] returns with nothing changed but [error_message]; the
    message it sets is ["'Quantity' must be an interger"], not the
    ["'Quantity' must be an integer"] that the specification gives. *)
Theorem add_item_bad_quantity lx m w n q o :
  current_warehouse m = Some w -> py_int q = None ->
  add_item lx n q o m =
    Returns tt (with_error_message (Some "'Quantity' must be an interger") m)
  /\ error_message (after (add_item lx n q o m))
     <> Some "'Quantity' must be an integer".
Proof.
  intros Hw Hq. rewrite (add_item_unparsed lx m w n q o Hw Hq).
  split; [reflexivity|]. simpl. discriminate.
Qed.

Lemma add_item_bad_quantity_witness :
  add_item sample_lexer "Washer" "abc" "" stocked =
    Returns tt
      (with_error_message (Some "'Quantity' must be an interger") stocked)
  /\ error_message (after (add_item sample_lexer "Washer" "abc" "" stocked))
     <> Some "'Quantity' must be an integer".
Proof.
  apply (add_item_bad_quantity sample_lexer stocked "A" "Washer" "abc" "");
    reflexivity.
Defined.













(** *** Reading the state *)

Lemma find_filter (c : Row -> bool) rs r :
  find c rs = Some r -> exists rest, filter c rs = r :: rest.
Proof.
  induction rs as [|r' rs IH]; simpl; [discriminate|].
  destruct (c r') eqn:E.
  - intros H. inversion H. subst. now exists (filter c rs).
  - exact IH.
Qed.

Lemma find_existsb (c : Row -> bool) rs r :
  find c rs = Some r -> existsb c rs = true.
Proof.
  induction rs as [|r' rs IH]; simpl; [discriminate|].
  destruct (c r'); [reflexivity|exact IH].
Qed.

(** [edit_item] on an id the engine finds: the first row it selects is
    staged, field by field. *)
Lemma edit_item_found lx m w k t s c r :
  selected lx m w k t -> id_expr lx s = Some c -> find c (rows t) = Some r ->
  edit_item lx s m =
    Returns tt (with_edit_item_data (Some (edit_data_of r)) m).
Proof.
  intros Hsel Hc Hfind.
  pose proof (resolve_selected _ _ _ _ _ Hsel) as Hr.
  destruct (find_filter c _ _ Hfind) as [rest Hrest].
  unfold edit_item, bind at 1.
  rewrite (id_exists_selected lx m w k t (Raw s) c Hsel Hc).
  rewrite (find_existsb c _ _ Hfind). cbn [negb].
  destruct Hsel as (Hw & _ & _).
  unfold bind, self, execute_read_query, fetch. cbv beta iota.
  rewrite Hw. simpl fmt_warehouse. rewrite Hr. simpl condition.
  rewrite Hc, Hrest. reflexivity.
Qed.

Lemma get_warehouse_data_eq lx m :
  get_warehouse_data lx m =
    Returns
      (mkWarehouseData
         (current_warehouse m) (warehouses m)
         (match current_warehouse m with
          | None => None
          | Some w => fetch lx (SelectAll w) (connection m)
          end)
         (edit_item_data m) (error_message m))
      (mkManager (connection m) (current_warehouse m) (warehouses m)
                 None None).
Proof.
  destruct m as [db [w|] ws e d]; reflexivity.
Qed.

(** C4.  [get_warehouse_data] always returns; the dictionary holds the
    selected warehouse, the warehouse list, the items ([None] when no
    warehouse is selected), the staged edit and the error as they stood; the
    object it leaves has both one-shot fields [None] and the selection, the
    warehouse list and the database untouched.  Hence after an [edit_item]
    that found its item, a first read carries that item's record and a
    second read carries [None]. *)
Theorem get_warehouse_data_snapshot :
  (forall lx m,
      get_warehouse_data lx m =
        Returns
          (mkWarehouseData
             (current_warehouse m) (warehouses m)
             (match current_warehouse m with
              | None => None
              | Some w => fetch lx (SelectAll w) (connection m)
              end)
             (edit_item_data m) (error_message m))
          (mkManager (connection m) (current_warehouse m) (warehouses m)
                     None None))
  /\ (forall lx m w k t s c r,
        selected lx m w k t ->
        id_expr lx s = Some c -> find c (rows t) = Some r ->
        exists m1 d1 m2 d2 m3,
          edit_item lx s m = Returns tt m1
          /\ get_warehouse_data lx m1 = Returns d1 m2
          /\ d_edit_item_data d1 = Some (edit_data_of r)
          /\ get_warehouse_data lx m2 = Returns d2 m3
          /\ d_edit_item_data d2 = None).
Proof.
  split; [exact get_warehouse_data_eq|].
  intros lx m w k t s c r Hsel Hc Hfind.
  pose proof (edit_item_found lx m w k t s c r Hsel Hc Hfind) as Hedit.
  eexists. eexists. eexists. eexists. eexists.
  split; [exact Hedit|].
  split; [apply get_warehouse_data_eq|].
  split; [reflexivity|].
  split; [apply get_warehouse_data_eq|].
  reflexivity.
Qed.

Lemma get_warehouse_data_snapshot_witness :
  exists m1 d1 m2 d2 m3,
    edit_item sample_lexer "2" stocked = Returns tt m1
    /\ get_warehouse_data sample_lexer m1 = Returns d1 m2
    /\ d_edit_item_data d1 = Some (edit_data_of (mkRow "Nut" 2 5 ""))
    /\ get_warehouse_data sample_lexer m2 = Returns d2 m3
    /\ d_edit_item_data d2 = None.
Proof.
  apply (proj2 get_warehouse_data_snapshot sample_lexer stocked "A" "A"
           (mkTable [mkRow "Bolt" 1 10 "steel"; mkRow "Nut" 2 5 ""] 2)
           "2" (fun r => id r =? 2) (mkRow "Nut" 2 5 "")).
  - repeat split.
  - reflexivity.
  - reflexivity.
Defined.

(** *** Copying a warehouse *)







(** ** Further properties of the code *)

(** *** Ordered rows *)











(** *** The list of tables *)

Lemma map_fst_update k t ts : map fst (update k t ts) = map fst ts.
Proof.
  induction ts as [|[k' t'] ts IH]; simpl; [reflexivity|].
  destruct (String.eqb k' k); simpl; [reflexivity|now rewrite IH].
Qed.



Lemma lookup_None k ts : lookup k ts = None <-> ~ In k (map fst ts).
Proof.
  induction ts as [|[k0 t0] ts IH]; simpl.
  - split; [intros _ []|reflexivity].
  - destruct (String.eqb k0 k) eqn:E.
    + apply String.eqb_eq in E. split; [discriminate|]. intros H.
      exfalso. apply H. now left.
    + apply String.eqb_neq in E. rewrite IH. split.
      * intros H [H'|H']; auto.
      * intros H H'. apply H. now right.
Qed.

Lemma In_drop x k ts : In x (drop k ts) -> In x ts.
Proof.
  induction ts as [|[k0 t0] ts IH]; simpl; [intros []|].
  destruct (String.eqb k0 k); [now right|].
  intros [H|H]; [now left|right; now apply IH].
Qed.


Lemma lookup_drop_same k ts :
  NoDup (map fst ts) -> lookup k (drop k ts) = None.
Proof.
  induction ts as [|[k0 t0] ts IH]; simpl; intros H; [reflexivity|].
  inversion H as [|? ? Hnot Hnd]; subst.
  destruct (String.eqb k0 k) eqn:E.
  - apply String.eqb_eq in E. subst. now apply lookup_None.
  - simpl. rewrite E. now apply IH.
Qed.

Lemma lookup_drop_other k k' ts :
  k' <> k -> lookup k' (drop k ts) = lookup k' ts.
Proof.
  intros Hne. induction ts as [|[k0 t0] ts IH]; simpl; [reflexivity|].
  destruct (String.eqb k0 k) eqn:E.
  - apply String.eqb_eq in E. subst.
    destruct (String.eqb k k') eqn:E'; [|reflexivity].
    apply String.eqb_eq in E'. congruence.
  - simpl. now rewrite IH.
Qed.

Lemma resolve_Some lx tbl s k t :
  resolve lx tbl s = Some (k, t) ->
  table_ref lx tbl = Some k /\ lookup k (tables s) = Some t.
Proof.
  unfold resolve. destruct (table_ref lx tbl) as [k0|]; [|discriminate].
  destruct (lookup k0 (tables s)) as [t0|] eqn:E; [|discriminate].
  intros H. inversion H. subst. auto.
Qed.


(** *** Every statement keeps the database well formed *)

Lemma rewritten_Some k f q s s' :
  rewritten k f q s = Some s' ->
  exists t', s' = store_table k t' s /\ ordered (rows t') = true.
Proof.
  unfold rewritten. destruct (f q s) as [t'|]; [|discriminate].
  destruct (ordered (rows t')) eqn:E; [|discriminate].
  intros H. inversion H. now exists t'.
Qed.


(** *** Carrying a database property through a method body *)

Section Carry.

Variable lx : Lexer.
Variable P : Store -> Prop.
Hypothesis P_exec : forall q s s', P s -> exec lx q s = Some s' -> P s'.

Lemma carries_ret {A} (a : A) : carries P (ret a).
Proof. now intros m. Qed.

Lemma carries_raise {A} e : carries P (@raise A e).
Proof. now intros m. Qed.

Lemma carries_self : carries P self.
Proof. now intros m. Qed.

Lemma carries_bind {A B} (c : Method A) (f : A -> Method B) :
  carries P c -> (forall a, carries P (f a)) -> carries P (bind c f).
Proof.
  intros Hc Hf m Hm. unfold bind. specialize (Hc m Hm).
  destruct (c m) as [a m'|e m']; simpl in *; [|exact Hc].
  now apply Hf.
Qed.

Lemma carries_assign f :
  (forall m, connection (f m) = connection m) -> carries P (assign f).
Proof. intros Hf m Hm. simpl. now rewrite Hf. Qed.

Lemma carries_execute_query q : carries P (execute_query lx q).
Proof.
  intros m Hm. unfold execute_query.
  destruct (exec lx q (connection m)) as [db|] eqn:E; simpl; [|exact Hm].
  now apply (P_exec q (connection m)).
Qed.

Lemma carries_execute_read_query q : carries P (execute_read_query lx q).
Proof. now intros m. Qed.

Lemma carries_getitem {A} (xs : list A) i : carries P (getitem xs i).
Proof. intros m. unfold getitem. now destruct (nth_error xs i). Qed.

Lemma carries_getitem_opt {A} (xs : option (list A)) i :
  carries P (getitem_opt xs i).
Proof. destruct xs; [apply carries_getitem|apply carries_raise]. Qed.

Ltac carry :=
  repeat first
    [ apply carries_bind; [|intros]
    | apply carries_ret | apply carries_raise | apply carries_self
    | apply carries_execute_query | apply carries_execute_read_query
    | apply carries_getitem | apply carries_getitem_opt
    | apply carries_assign; reflexivity
    | match goal with
      | |- carries P (match ?x with _ => _ end) => destruct x
      end ].

Lemma carries_id_exists a : carries P (id_exists lx a).
Proof. unfold id_exists. carry. Qed.

Lemma carries_step c m :
  P (connection m) -> P (connection (step lx c m)).
Proof.
  pose proof carries_id_exists as Hid.
  destruct c; simpl; revert m.
  - change (carries P (get_warehouse_data lx)).
    unfold get_warehouse_data, get_items. carry.
  - change (carries P (add_warehouse lx warehouse_name copy_items)).
    unfold add_warehouse. carry.
  - change (carries P (select_warehouse warehouse_name)).
    unfold select_warehouse. carry.
  - change (carries P (delete_warehouse lx)).
    unfold delete_warehouse. carry.
  - change (carries P (add_item lx name0 quantity0 other0)).
    unfold add_item. carry.
  - change (carries P (edit_quantity lx id0 quantity0)).
    unfold edit_quantity. carry; apply Hid.
  - change (carries P (edit_item lx id0)).
    unfold edit_item. carry; apply Hid.
  - change (carries P (save_edit lx name0 id0 quantity0 other0 old_id)).
    unfold save_edit. carry; apply Hid.
  - change (carries P (delete_item lx id0)).
    unfold delete_item. carry.
Qed.

End Carry.




(** *** The list of warehouse names *)

Lemma py_in_false x xs : py_in x xs = false <-> ~ In x xs.
Proof.
  rewrite <- py_in_In. destruct (py_in x xs); split; congruence.
Qed.

Lemma py_remove_Some x xs :
  In x xs -> exists ys, py_remove x xs = Some ys.
Proof.
  induction xs as [|y xs IH]; simpl; [intros []|].
  destruct (String.eqb y x) eqn:E; [now exists xs|].
  intros [H|H]; [subst; now rewrite String.eqb_refl in E|].
  destruct (IH H) as [ys ->]. now exists (y :: ys).
Qed.

Lemma py_remove_In x xs ys y :
  py_remove x xs = Some ys -> In y ys -> In y xs.
Proof.
  revert ys. induction xs as [|z xs IH]; simpl; intros ys; [discriminate|].
  destruct (String.eqb z x).
  - intros H. inversion H. subst. now right.
  - destruct (py_remove x xs) as [ys'|]; [|discriminate].
    intros H. inversion H. subst. intros [<-|Hin]; [now left|].
    right. now apply (IH ys').
Qed.

Lemma py_remove_other x xs ys y :
  py_remove x xs = Some ys -> y <> x -> In y xs -> In y ys.
Proof.
  revert ys. induction xs as [|z xs IH]; simpl; intros ys; [discriminate|].
  destruct (String.eqb z x) eqn:E.
  - apply String.eqb_eq in E. subst z. intros H. inversion H. subst.
    intros Hne [Hy|Hy]; [congruence|exact Hy].
  - destruct (py_remove x xs) as [ys'|]; [|discriminate].
    intros H. inversion H. subst. intros Hne [<-|Hin]; [now left|].
    right. now apply (IH ys').
Qed.

Lemma py_remove_NoDup x xs ys :
  py_remove x xs = Some ys -> NoDup xs -> NoDup ys /\ ~ In x ys.
Proof.
  revert ys. induction xs as [|z xs IH]; simpl; intros ys; [discriminate|].
  destruct (String.eqb z x) eqn:E.
  - apply String.eqb_eq in E. subst z. intros H Hnd.
    inversion H. subst. now inversion Hnd.
  - apply String.eqb_neq in E.
    destruct (py_remove x xs) as [ys'|] eqn:Er; [|discriminate].
    intros H Hnd. inversion H. subst. inversion Hnd as [|? ? Hz Hnd']. subst.
    destruct (IH ys' eq_refl Hnd') as [H1 H2]. split.
    + constructor; [|exact H1]. intros Hin. apply Hz.
      now apply (py_remove_In x xs ys').
    + intros [Hx|Hx]; [congruence|now apply H2].
Qed.

(** What [add_warehouse] leaves when the name is new: the session is
    determined, whatever the engine did with the statements. *)
Lemma add_warehouse_new lx name b m :
  py_in (replace_spaces name) (warehouses m) = false ->
  exists db,
    add_warehouse lx name b m =
      Returns tt (mkManager db (Some (replace_spaces name))
                            (warehouses m ++ [replace_spaces name])%list
                            (error_message m) (edit_item_data m)).
Proof.
  intros Hnew. unfold add_warehouse, bind, self, assign, ret. rewrite Hnew.
  destruct (execute_query_session lx (CreateTable (replace_spaces name)) m)
    as [db1 ->].
  destruct b; [destruct (current_warehouse m) as [w|] eqn:Ew|];
    try (exists db1; reflexivity).
  change (current_warehouse (with_connection db1 m))
    with (current_warehouse m).
  destruct (execute_query_session lx (InsertSelect (replace_spaces name) w)
              (with_connection db1 m)) as [db2 ->].
  destruct (execute_query_session lx (UpdateZero (replace_spaces name))
              (with_connection db2 (with_connection db1 m))) as [db3 ->].
  exists db3. reflexivity.
Qed.

(** X2.  The list of warehouse names never acquires a duplicate: if its
    entries are distinct before a call they are distinct after it. *)
Theorem step_keeps_names_distinct lx c m :
  NoDup (warehouses m) -> NoDup (warehouses (step lx c m)).
Proof.
  intros Hnd.
  assert (Hkeep : forall A (b : Method A),
             keeps_session b -> NoDup (warehouses (after (b m)))).
  { intros A b Hb. destruct (Hb m) as [_ ->]. exact Hnd. }
  destruct c; simpl.
  - apply Hkeep, keeps_get_warehouse_data.
  - destruct (py_in (replace_spaces warehouse_name) (warehouses m)) eqn:E.
    + unfold add_warehouse, bind, self, assign. now rewrite E.
    + destruct (add_warehouse_new lx warehouse_name copy_items m E)
        as [db ->].
      simpl. apply NoDup_app; [exact Hnd| |].
      * constructor; [intros []|constructor].
      * intros x Hx [<-|[]]. now apply py_in_false in E.
  - unfold select_warehouse, bind, self, assign, ret.
    destruct (negb (py_in warehouse_name (warehouses m))); [exact Hnd|].
    destruct (current_warehouse m) as [w|]; [|exact Hnd].
    destruct (String.eqb warehouse_name w); exact Hnd.
  - unfold delete_warehouse, bind, self, assign, ret, raise.
    destruct (current_warehouse m) as [w|]; [|exact Hnd].
    destruct (py_remove w (warehouses m)) as [ws|] eqn:Er; [|exact Hnd].
    destruct (execute_query_session lx (DropTable w) (with_warehouses ws m))
      as [db ->].
    simpl. now apply (py_remove_NoDup w (warehouses m)).
  - apply Hkeep, keeps_add_item.
  - apply Hkeep, keeps_edit_quantity.
  - apply Hkeep, keeps_edit_item.
  - apply Hkeep, keeps_save_edit.
  - apply Hkeep, keeps_delete_item.
Qed.

Lemma step_keeps_names_distinct_witness :
  NoDup (warehouses (step sample_lexer (AddWarehouse "B wing" true) stocked)).
Proof.
  apply (step_keeps_names_distinct sample_lexer
           (AddWarehouse "B wing" true) stocked).
  constructor; [intros []|constructor].
Defined.

(** X3.  The constructor on a database that has its bookkeeping table and
    no user table of that name returns an object with nothing selected,
    both one-shot fields [None], and [warehouses] equal to the names of the
    tables in catalogue order: a name is listed exactly when it has a
    table.  On a path that cannot be opened it raises [AttributeError]. *)
Theorem init_lists_tables lx db :
  has_sequence db = true ->
  ~ In sequence_name (map fst (tables db)) ->
  (exists m,
      init lx (DatabaseFile db) = inr m
      /\ connection m = db
      /\ current_warehouse m = None
      /\ warehouses m = map fst (tables db)
      /\ error_message m = None
      /\ edit_item_data m = None
      /\ forall n, In n (warehouses m) <-> lookup n (tables db) <> None)
  /\ init lx Unopenable = inl AttributeError.
Proof.
  intros Hs Hn. split; [|reflexivity].
  exists (mkManager db None (map fst (tables db)) None None).
  split; [now apply init_existing|]. repeat split; simpl.
  - intros Hin Hl. now apply lookup_None in Hl.
  - intros Hl. destruct (in_dec string_dec n (map fst (tables db)))
      as [Hin|Hout]; [exact Hin|].
    apply lookup_None in Hout. contradiction.
Qed.

Lemma init_lists_tables_witness :
  exists m,
    init sample_lexer (DatabaseFile (connection stocked)) = inr m
    /\ warehouses m = ["A"].
Proof.
  destruct (init_lists_tables sample_lexer (connection stocked))
    as [(m & H1 & _ & _ & H4 & _) _].
  - reflexivity.
  - simpl. intros [H|[]]. discriminate.
  - exists m. split; [exact H1|exact H4].
Defined.

(** X4.  With a warehouse selected that is listed once and backed by a
    table, in a database whose table names are distinct,
    [delete_warehouse] returns with nothing selected, the name gone from
    [warehouses] and every other name kept, the table gone from the
    database and every other table kept, and no error set. *)
Theorem delete_warehouse_removes lx m w k t :
  selected lx m w k t ->
  In w (warehouses m) -> NoDup (warehouses m) ->
  NoDup (map fst (tables (connection m))) ->
  exists m',
    delete_warehouse lx m = Returns tt m'
    /\ current_warehouse m' = None
    /\ ~ In w (warehouses m')
    /\ (forall x, x <> w -> (In x (warehouses m') <-> In x (warehouses m)))
    /\ lookup k (tables (connection m')) = None
    /\ (forall k', k' <> k ->
          lookup k' (tables (connection m'))
          = lookup k' (tables (connection m)))
    /\ error_message m' = error_message m
    /\ edit_item_data m' = edit_item_data m.
Proof.
  intros Hsel Hin Hnd Hkeys.
  pose proof (resolve_selected _ _ _ _ _ Hsel) as Hr.
  destruct Hsel as (Hw & Hk & Ht).
  destruct (py_remove_Some w _ Hin) as [ws Hws].
  destruct (py_remove_NoDup _ _ _ Hws Hnd) as [_ Hgone].
  exists (with_current_warehouse None
            (with_connection
               (mkStore (drop k (tables (connection m)))
                        (has_sequence (connection m)))
               (with_warehouses ws m))).
  split; [|split; [|split; [|split; [|split; [|split; [|split]]]]]].
  - unfold delete_warehouse, bind, self, assign, execute_query.
    rewrite Hw, Hws. simpl. now rewrite Hr.
  - reflexivity.
  - exact Hgone.
  - intros x Hne. simpl. split.
    + now apply (py_remove_In w).
    + now apply (py_remove_other w).
  - simpl. now apply lookup_drop_same.
  - intros k' Hne. simpl. now apply lookup_drop_other.
  - reflexivity.
  - reflexivity.
Qed.

Lemma delete_warehouse_removes_witness :
  exists m',
    delete_warehouse sample_lexer stocked = Returns tt m'
    /\ current_warehouse m' = None
    /\ ~ In "A" (warehouses m')
    /\ lookup "A" (tables (connection m')) = None.
Proof.
  destruct (delete_warehouse_removes sample_lexer stocked "A" "A"
              (mkTable [mkRow "Bolt" 1 10 "steel"; mkRow "Nut" 2 5 ""] 2))
    as (m' & H1 & H2 & H3 & _ & H5 & _).
  - repeat split.
  - now left.
  - constructor; [intros []|constructor].
  - constructor; [intros []|constructor].
  - exists m'. repeat split; assumption.
Defined.

(** *** Which methods can raise *)











(** *** Creating, selecting and deleting a warehouse *)







(** X7.  After [add_warehouse] under a new name, [select_warehouse] with
    the normalised name changes nothing and sets no error; the new name is
    selected already. *)
Theorem add_then_select_warehouse lx m name b :
  py_in (replace_spaces name) (warehouses m) = false ->
  exists m1,
    add_warehouse lx name b m = Returns tt m1
    /\ current_warehouse m1 = Some (replace_spaces name)
    /\ error_message m1 = error_message m
    /\ select_warehouse (replace_spaces name) m1 = Returns tt m1.
Proof.
  intros Hnew. destruct (add_warehouse_new lx name b m Hnew) as [db Hadd].
  eexists. split; [exact Hadd|]. split; [reflexivity|].
  split; [reflexivity|].
  unfold select_warehouse, bind, self, ret. simpl.
  assert (Hin : py_in (replace_spaces name)
                  (warehouses m ++ [replace_spaces name]) = true).
  { apply py_in_In. apply in_or_app. right. now left. }
  rewrite Hin. simpl. now rewrite String.eqb_refl.
Qed.

Lemma add_then_select_warehouse_witness :
  exists m1,
    add_warehouse sample_lexer "B wing" false stocked = Returns tt m1
    /\ current_warehouse m1 = Some "B_wing"
    /\ error_message m1 = None
    /\ select_warehouse "B_wing" m1 = Returns tt m1.
Proof.
  apply (add_then_select_warehouse sample_lexer stocked "B wing" false).
  reflexivity.
Defined.

(** *** Adding, changing and removing items *)






(** X10.  The numeric fields are checked before the database is consulted,
    on every object, with or without a selected warehouse: [edit_quantity]
    with an id or a quantity that [int] rejects, and [save_edit] with a
    quantity or an id that [int] rejects, return with their message set and
    nothing else changed; [save_edit] reports the quantity first.  With a
    warehouse selected, [save_edit] with a new id that differs from the old
    one and belongs to an item returns with ["IDs must be unique."] set and
    nothing else changed. *)
Theorem numeric_fields_checked_first lx m :
  (forall i q, py_int i = None \/ py_int q = None ->
     edit_quantity lx i q m =
       Returns tt (with_error_message
                     (Some "'Quantity' and ID must be an intergers.") m))
  /\ (forall n i q o old, py_int q = None ->
        save_edit lx n i q o old m =
          Returns tt (with_error_message
                        (Some "'Quantity' must be an interger.") m))
  /\ (forall n i q o old zq, py_int q = Some zq ->
        py_int i = None \/ py_int old = None ->
        save_edit lx n i q o old m =
          Returns tt (with_error_message (Some "IDs must be integers.") m))
  /\ (forall w k t n i q o old zq zi zold,
        selected lx m w k t ->
        py_int q = Some zq -> py_int i = Some zi -> py_int old = Some zold ->
        zi <> zold -> has_id zi (rows t) = true ->
        save_edit lx n i q o old m =
          Returns tt (with_error_message (Some "IDs must be unique.") m)).
Proof.
  split; [|split; [|split]].
  - intros i q [H|H]; unfold edit_quantity; rewrite H;
      [|destruct (py_int i)]; reflexivity.
  - intros n i q o old H. unfold save_edit. now rewrite H.
  - intros n i q o old zq Hq [H|H]; unfold save_edit; rewrite Hq, H;
      [|destruct (py_int i)]; reflexivity.
  - intros w k t n i q o old zq zi zold Hsel Hq Hi Hold Hne Hused.
    unfold save_edit. rewrite Hq, Hi, Hold. unfold bind.
    apply Z.eqb_neq in Hne. rewrite Hne. cbn [negb].
    rewrite (id_exists_selected lx m w k t (Lit zi) _ Hsel eq_refl).
    fold (has_id zi (rows t)). now rewrite Hused.
Qed.

Lemma numeric_fields_checked_first_witness :
  edit_quantity sample_lexer "1" "many" blank =
    Returns tt (with_error_message
                  (Some "'Quantity' and ID must be an intergers.") blank)
  /\ save_edit sample_lexer "Bolt" "2" "3" "" "1" stocked =
       Returns tt (with_error_message (Some "IDs must be unique.") stocked).
Proof.
  split.
  - apply (proj1 (numeric_fields_checked_first sample_lexer blank)).
    right. reflexivity.
  - apply (proj2 (proj2 (proj2
             (numeric_fields_checked_first sample_lexer stocked)))
             "A" "A"
             (mkTable [mkRow "Bolt" 1 10 "steel"; mkRow "Nut" 2 5 ""] 2)
             "Bolt" "2" "3" "" "1" 3 2 1);
      [repeat split|reflexivity|reflexivity|reflexivity|discriminate
      |reflexivity].
Defined.






Lemma has_id_shifted z d z' rs :
  has_id z' (map (shifted z d) rs) = has_id z' rs.
Proof.
  unfold has_id. induction rs as [|r rs IH]; simpl; [reflexivity|].
  rewrite IH. f_equal. unfold shifted.
  destruct (id r =? z); [|reflexivity]. now destruct (quantity r).
Qed.






(** *** What a call leaves alone *)

Lemma unchanged_ret {A X} (f : Manager -> X) (a : A) : unchanged f (ret a).
Proof. now intros m. Qed.

Lemma unchanged_raise {A X} (f : Manager -> X) e : unchanged f (@raise A e).
Proof. now intros m. Qed.

Lemma unchanged_self {X} (f : Manager -> X) : unchanged f self.
Proof. now intros m. Qed.

Lemma unchanged_bind {A B X} (f : Manager -> X) (c : Method A)
      (k : A -> Method B) :
  unchanged f c -> (forall a, unchanged f (k a)) -> unchanged f (bind c k).
Proof.
  intros Hc Hk m. unfold bind. specialize (Hc m).
  destruct (c m) as [a m'|e m']; simpl in *; [|exact Hc].
  now rewrite (Hk a m').
Qed.

Lemma unchanged_assign {X} (f : Manager -> X) g :
  (forall m, f (g m) = f m) -> unchanged f (assign g).
Proof. intros H m. apply H. Qed.

Lemma unchanged_execute_query {X} (f : Manager -> X) lx q :
  (forall db m, f (with_connection db m) = f m) ->
  unchanged f (execute_query lx q).
Proof.
  intros H m. destruct (execute_query_session lx q m) as [db ->]. apply H.
Qed.

Lemma unchanged_execute_read_query {X} (f : Manager -> X) lx q :
  unchanged f (execute_read_query lx q).
Proof. now intros m. Qed.

Lemma unchanged_getitem {A X} (f : Manager -> X) (xs : list A) i :
  unchanged f (getitem xs i).
Proof. intros m. unfold getitem. now destruct (nth_error xs i). Qed.

Lemma unchanged_getitem_opt {A X} (f : Manager -> X) (xs : option (list A)) i :
  unchanged f (getitem_opt xs i).
Proof. destruct xs; [apply unchanged_getitem|apply unchanged_raise]. Qed.

Ltac still :=
  repeat first
    [ apply unchanged_bind; [|intros]
    | apply unchanged_ret | apply unchanged_raise | apply unchanged_self
    | apply unchanged_execute_read_query
    | apply unchanged_getitem | apply unchanged_getitem_opt
    | apply unchanged_assign; reflexivity
    | apply unchanged_execute_query; reflexivity
    | match goal with
      | |- unchanged _ (match ?x with _ => _ end) => destruct x
      end ].

(** [id_exists] only looks: the object is the same after it. *)
Lemma id_exists_pure lx a : unchanged (fun m => m) (id_exists lx a).
Proof. unfold id_exists. still. Qed.

Lemma id_exists_outcome lx a m :
  (exists b, id_exists lx a m = Returns b m) \/
  (exists e, id_exists lx a m = Raises e m).
Proof.
  pose proof (id_exists_pure lx a m) as H.
  destruct (id_exists lx a m) as [b m'|e m']; simpl in H; subst.
  - left. now exists b.
  - right. now exists e.
Qed.

Lemma edit_item_reads_only lx i : unchanged connection (edit_item lx i).
Proof.
  unfold edit_item. apply unchanged_bind; [|intros; still].
  intros m. now rewrite (id_exists_pure lx (Raw i) m).
Qed.

(** X13.  No method writes to the database while looking something up:
    [get_warehouse_data], [select_warehouse] and [edit_item] leave the
    database as it was on every object and input, returning or raising,
    and [id_exists] leaves the whole object as it was. *)
Theorem lookups_leave_database lx :
  unchanged connection (get_warehouse_data lx)
  /\ (forall n, unchanged connection (select_warehouse n))
  /\ (forall i, unchanged connection (edit_item lx i))
  /\ (forall a, unchanged (fun m => m) (id_exists lx a)).
Proof.
  split; [unfold get_warehouse_data, get_items; still|].
  split; [intros n; unfold select_warehouse; still|].
  split; [exact (edit_item_reads_only lx)|exact (id_exists_pure lx)].
Qed.

(** X14.  A method that sets [error_message] does nothing else: after any
    call but [get_warehouse_data], either [error_message] is what it was,
    or the object differs from the one before only in [error_message]. *)
Theorem errors_change_nothing_else lx c m :
  c <> GetWarehouseData ->
  error_message (step lx c m) = error_message m
  \/ exists e, step lx c m = with_error_message (Some e) m.
Proof.
  intros Hc.
  assert (Hq : forall q m0, error_message (after (execute_query lx q m0))
                            = error_message m0).
  { intros q m0. now apply unchanged_execute_query. }
  destruct c; simpl; [contradiction| | | | | | | |].
  - destruct (py_in (replace_spaces warehouse_name) (warehouses m)) eqn:E.
    + right. unfold add_warehouse, bind, self, assign. rewrite E.
      eexists. reflexivity.
    + left. destruct (add_warehouse_new lx warehouse_name copy_items m E)
        as [db ->]. reflexivity.
  - unfold select_warehouse, bind, self, assign, ret.
    destruct (negb (py_in warehouse_name (warehouses m)));
      [right; eexists; reflexivity|left].
    destruct (current_warehouse m) as [w|]; [|reflexivity].
    destruct (String.eqb warehouse_name w); reflexivity.
  - left. unfold delete_warehouse, bind, self, assign, ret, raise.
    destruct (current_warehouse m) as [w|]; [|reflexivity].
    destruct (py_remove w (warehouses m)) as [ws|]; [|reflexivity].
    destruct (execute_query_session lx (DropTable w) (with_warehouses ws m))
      as [db ->].
    reflexivity.
  - unfold add_item, bind, self, assign. cbv beta iota.
    destruct (current_warehouse m) as [w|];
      [|right; eexists; reflexivity].
    destruct (py_int quantity0); [left; apply Hq|right; eexists; reflexivity].
  - unfold edit_quantity.
    destruct (py_int id0) as [z|]; [|right; eexists; reflexivity].
    destruct (py_int quantity0) as [d|]; [|right; eexists; reflexivity].
    unfold bind, self.
    destruct (id_exists_outcome lx (Lit z) m) as [[b ->]|[e ->]];
      [|now left].
    destruct b; cbn [negb]; cbv beta iota;
      [left|right; eexists; reflexivity].
    apply Hq.
  - unfold edit_item.
    assert (Hsplit : forall (k : bool -> Method unit) b,
               id_exists lx (Raw id0) m = Returns b m ->
               after ((found <- id_exists lx (Raw id0) ;; k found) m)
               = after (k b m)).
    { intros k b Hb. unfold bind. now rewrite Hb. }
    destruct (id_exists_outcome lx (Raw id0) m) as [[b Hb]|[e He]];
      [|left; unfold bind at 1; now rewrite He].
    rewrite (Hsplit _ b Hb).
    destruct b; cbn [negb]; [left|right; eexists; reflexivity].
    assert (H : unchanged error_message
                  (m0 <- self ;;
                   rows <- execute_read_query lx
                     (SelectWhere (fmt_warehouse (current_warehouse m0))
                                  (Raw id0)) ;;
                   data <- getitem_opt rows 0 ;;
                   d0 <- getitem data 0 ;;
                   d1 <- getitem data 1 ;;
                   d2 <- getitem data 2 ;;
                   d3 <- getitem data 3 ;;
                   assign (with_edit_item_data
                             (Some (mkEditData d0 d1 d2 d3))))) by still.
    apply H.
  - unfold save_edit.
    destruct (py_int quantity0) as [zq|]; [|right; eexists; reflexivity].
    destruct (py_int id0) as [zi|]; [|right; eexists; reflexivity].
    destruct (py_int old_id) as [zold|]; [|right; eexists; reflexivity].
    unfold bind, self.
    assert (Hclash :
              (exists b, (if negb (zi =? zold) then id_exists lx (Lit zi)
                          else ret false) m = Returns b m)
              \/ (exists e, (if negb (zi =? zold) then id_exists lx (Lit zi)
                             else ret false) m = Raises e m)).
    { destruct (negb (zi =? zold)); [apply id_exists_outcome|].
      left. now exists false. }
    destruct Hclash as [[b ->]|[e ->]]; [|now left].
    destruct b; cbv beta iota; [right; eexists; reflexivity|left].
    apply Hq.
  - left. unfold delete_item, bind, self. cbv beta iota. apply Hq.
Qed.

Lemma errors_change_nothing_else_witness :
  error_message (step sample_lexer (EditQuantity "7" "1") stocked)
    = error_message stocked
  \/ exists e,
       step sample_lexer (EditQuantity "7" "1") stocked
       = with_error_message (Some e) stocked.
Proof.
  apply (errors_change_nothing_else sample_lexer (EditQuantity "7" "1") stocked).
  discriminate.
Defined.

(** A statement on the items of one table leaves every other table as it
    was. *)
Lemma execute_item_other lx q m tbl k' :
  match q with
  | InsertItem t _ _ _ | UpdateAdd t _ _ | UpdateItem t _ _ _ _ _
  | DeleteWhere t _ => t = tbl
  | _ => False
  end ->
  table_ref lx tbl <> Some k' ->
  lookup k' (tables (connection (after (execute_query lx q m))))
  = lookup k' (tables (connection m)).
Proof.
  intros Hq Hk'. unfold execute_query.
  destruct (exec lx q (connection m)) as [db|] eqn:E; [|reflexivity].
  simpl.
  assert (Hst : forall k t t',
             resolve lx tbl (connection m) = Some (k, t) ->
             lookup k' (tables (store_table k t' (connection m)))
             = lookup k' (tables (connection m))).
  { intros k t t' Hr. apply resolve_Some in Hr as [Hk _].
    simpl. apply lookup_update_other. intros ->. congruence. }
  destruct q as [?|? ?|?|?|t n qty o|t qty z|t n z qty o old|t a];
    try contradiction; subst t; simpl in E;
    destruct (resolve lx tbl (connection m)) as [[k t]|] eqn:Er;
    try discriminate.
  - destruct (quoted lx n) as [n'|f|]; [| |discriminate].
    + destruct (quoted lx o) as [o'|f|]; [| |discriminate].
      * destruct (int64 _); [|discriminate].
        inversion E. now apply (Hst k t).
      * destruct (rewritten_Some _ _ _ _ _ E) as (t' & -> & _).
        now apply (Hst k t).
    + destruct (rewritten_Some _ _ _ _ _ E) as (t' & -> & _).
      now apply (Hst k t).
  - inversion E. now apply (Hst k t).
  - destruct (quoted lx n) as [n'|f|]; [| |discriminate].
    + destruct (quoted lx o) as [o'|f|]; [| |discriminate].
      * destruct (has_id old (rows t)); [|now inversion E].
        destruct (int64 z && negb (has_id z _)); [|discriminate].
        inversion E. now apply (Hst k t).
      * destruct (rewritten_Some _ _ _ _ _ E) as (t' & -> & _).
        now apply (Hst k t).
    + destruct (rewritten_Some _ _ _ _ _ E) as (t' & -> & _).
      now apply (Hst k t).
  - destruct (condition lx a); [|discriminate].
    inversion E. now apply (Hst k t).
Qed.

(** X15.  The item methods work on the selected warehouse only: whatever
    the call and its arguments, every table other than the one the
    selected name denotes is as it was, and so are the selection and the
    list of warehouses. *)
Theorem item_calls_stay_in_warehouse lx c m k' :
  item_call c = true ->
  table_ref lx (fmt_warehouse (current_warehouse m)) <> Some k' ->
  lookup k' (tables (connection (step lx c m)))
  = lookup k' (tables (connection m))
  /\ current_warehouse (step lx c m) = current_warehouse m
  /\ warehouses (step lx c m) = warehouses m.
Proof.
  intros Hc Hk'.
  assert (Hex : forall q,
             match q with
             | InsertItem t _ _ _ | UpdateAdd t _ _ | UpdateItem t _ _ _ _ _
             | DeleteWhere t _ => t = fmt_warehouse (current_warehouse m)
             | _ => False
             end ->
             lookup k' (tables (connection (after (execute_query lx q m))))
             = lookup k' (tables (connection m))).
  { intros q Hq.
    now apply (execute_item_other lx q m
                 (fmt_warehouse (current_warehouse m))). }
  split.
  - destruct c; try discriminate; simpl.
    + unfold add_item, bind, self, assign. cbv beta iota.
      destruct (current_warehouse m) as [w|] eqn:Ew; [|reflexivity].
      destruct (py_int quantity0); [|reflexivity].
      apply Hex. reflexivity.
    + unfold edit_quantity.
      destruct (py_int id0) as [z|]; [|reflexivity].
      destruct (py_int quantity0) as [d|]; [|reflexivity].
      unfold bind, self.
      destruct (id_exists_outcome lx (Lit z) m) as [[b ->]|[e ->]];
        [|reflexivity].
      destruct b; cbn [negb]; cbv beta iota; [|reflexivity].
      now apply Hex.
    + now rewrite (edit_item_reads_only lx id0 m).
    + unfold save_edit.
      destruct (py_int quantity0) as [zq|]; [|reflexivity].
      destruct (py_int id0) as [zi|]; [|reflexivity].
      destruct (py_int old_id) as [zold|]; [|reflexivity].
      unfold bind, self.
      assert (Hclash :
                (exists b, (if negb (zi =? zold) then id_exists lx (Lit zi)
                            else ret false) m = Returns b m)
                \/ (exists e, (if negb (zi =? zold) then id_exists lx (Lit zi)
                               else ret false) m = Raises e m)).
      { destruct (negb (zi =? zold)); [apply id_exists_outcome|].
        left. now exists false. }
      destruct Hclash as [[b ->]|[e ->]]; [|reflexivity].
      destruct b; cbv beta iota; [reflexivity|]. now apply Hex.
    + unfold delete_item, bind, self. cbv beta iota. now apply Hex.
  - destruct c; try discriminate; simpl.
    + apply keeps_add_item.
    + apply keeps_edit_quantity.
    + apply keeps_edit_item.
    + apply keeps_save_edit.
    + apply keeps_delete_item.
Qed.

Lemma item_calls_stay_in_warehouse_witness :
  lookup "B" (tables (connection
                        (step sample_lexer (DeleteItem "1") stocked2)))
  = Some (mkTable [mkRow "Bolt" 1 0 "steel"; mkRow "Pin" 3 40 ""] 3)
  /\ lookup "A" (tables (connection
                           (step sample_lexer (DeleteItem "1") stocked2)))
     = Some (mkTable [mkRow "Nut" 2 5 ""] 2).
Proof.
  split; [|reflexivity].
  change (Some (mkTable [mkRow "Bolt" 1 0 "steel"; mkRow "Pin" 3 40 ""] 3))
    with (lookup "B" (tables (connection stocked2))).
  apply (item_calls_stay_in_warehouse sample_lexer (DeleteItem "1") stocked2
           "B").
  - reflexivity.
  - simpl. discriminate.
Defined.



(** *** Names and numbers as typed *)

(** X17.  [add_warehouse] normalises the name before anything else: the
    name it works with has no space and as many characters as the one
    given, normalising twice is normalising once, and a call with the
    normalised name is the same call. *)
Theorem add_warehouse_normalises name :
  all_chars (fun c => negb (Ascii.eqb c " ")) (replace_spaces name) = true
  /\ String.length (replace_spaces name) = String.length name
  /\ replace_spaces (replace_spaces name) = replace_spaces name
  /\ forall lx b m,
       add_warehouse lx (replace_spaces name) b m = add_warehouse lx name b m.
Proof.
  assert (Hidem : replace_spaces (replace_spaces name) = replace_spaces name).
  { induction name as [|c s IH]; simpl; [reflexivity|]. rewrite IH. f_equal.
    destruct (Ascii.eqb c " ") eqn:E; [reflexivity|now rewrite E]. }
  split; [|split; [|split; [exact Hidem|]]].
  - clear Hidem. induction name as [|c s IH]; simpl; [reflexivity|].
    rewrite andb_true_iff. split; [|exact IH].
    destruct (Ascii.eqb c " ") eqn:E; [reflexivity|now rewrite E].
  - clear Hidem. induction name as [|c s IH]; simpl; [reflexivity|].
    now rewrite IH.
  - intros lx b m. unfold add_warehouse. now rewrite Hidem.
Qed.

Lemma lstrip_blank s : all_chars is_space s = true -> lstrip s = EmptyString.
Proof.
  induction s as [|c s IH]; simpl; [reflexivity|].
  intros H. apply andb_true_iff in H as [Hc Hs]. rewrite Hc. now apply IH.
Qed.

(** X18.  [int] rejects the empty text and any text made of spaces only,
    so [add_item] with a warehouse selected and the quantity left blank
    returns with its message set and nothing inserted. *)
Theorem blank_quantity_rejected q :
  all_chars is_space q = true ->
  py_int q = None
  /\ forall lx m w n o,
       current_warehouse m = Some w ->
       add_item lx n q o m =
         Returns tt
           (with_error_message (Some "'Quantity' must be an interger") m).
Proof.
  intros Hq.
  assert (Hnone : py_int q = None)
    by (unfold py_int; now rewrite (lstrip_blank q Hq)).
  split; [exact Hnone|].
  intros lx m w n o Hw. now apply (add_item_unparsed lx m w n q o).
Qed.

Lemma blank_quantity_rejected_witness :
  add_item sample_lexer "Washer" "  " "" stocked =
    Returns tt
      (with_error_message (Some "'Quantity' must be an interger") stocked).
Proof.
  apply (proj2 (blank_quantity_rejected "  " eq_refl)
           sample_lexer stocked "A" "Washer" "").
  reflexivity.
Defined.

(** *** The quantity buttons *)

Lemma split_comma_nonempty s : split_comma s <> [].
Proof.
  destruct s as [|c s]; simpl; [discriminate|].
  destruct (Ascii.eqb c ","); [discriminate|].
  destruct (split_comma s); discriminate.
Qed.

Lemma split_comma_length s :
  List.length (split_comma s) = S (commas s).
Proof.
  induction s as [|c s IH]; simpl; [reflexivity|].
  destruct (Ascii.eqb c ","); simpl; [now rewrite IH|].
  destruct (split_comma s) as [|h t] eqn:E; [|exact IH].
  now destruct (split_comma_nonempty s).
Qed.

Lemma split_comma_plain s : commas s = O -> split_comma s = [s].
Proof.
  induction s as [|c s IH]; simpl; [reflexivity|].
  destruct (Ascii.eqb c ","); [discriminate|].
  intros H. now rewrite (IH H).
Qed.

Lemma split_comma_first i rest :
  commas i = O ->
  split_comma (i ++ String "," rest) = i :: split_comma rest.
Proof.
  induction i as [|c i IH]; simpl; [reflexivity|].
  destruct (Ascii.eqb c ","); [discriminate|].
  intros H. now rewrite (IH H).
Qed.

(** X19.  The route behind the quantity buttons takes the button's value
    apart at its comma: a value of the form [id,count] is passed on as
    [edit_quantity(id, count)]; a value with no comma or with more than one
    fails on the unpacking, and a form without the button fails with
    [KeyError]; in both failures the manager is never called and stays as
    it was. *)
Theorem edit_quantity_route lx output wm :
  (form_get "submit_button" output = None ->
   App.edit_quantity lx output wm = Failed KeyError wm)
  /\ (forall button,
        form_get "submit_button" output = Some button ->
        commas button <> 1%nat ->
        App.edit_quantity lx output wm = Failed UnpackError wm)
  /\ (forall i q,
        form_get "submit_button" output = Some (i ++ String "," q) ->
        commas i = O -> commas q = O ->
        App.edit_quantity lx output wm = redirect (edit_quantity lx i q wm)).
Proof.
  split; [|split].
  - intros H. unfold App.edit_quantity. now rewrite H.
  - intros button H Hn. unfold App.edit_quantity. rewrite H.
    pose proof (split_comma_length button) as Hlen.
    destruct (split_comma button) as [|a [|b [|c l]]]; simpl in Hlen;
      try reflexivity.
    exfalso. apply Hn. now inversion Hlen.
  - intros i q H Hi Hq. unfold App.edit_quantity. rewrite H.
    now rewrite (split_comma_first i q Hi), (split_comma_plain q Hq).
Qed.

Lemma edit_quantity_route_witness :
  App.edit_quantity sample_lexer [("submit_button", "2,-1")] stocked
  = redirect (edit_quantity sample_lexer "2" "-1" stocked)
  /\ App.edit_quantity sample_lexer [("submit_button", "2")] stocked
     = Failed UnpackError stocked.
Proof.
  split.
  - apply (proj2 (proj2 (edit_quantity_route sample_lexer
                           [("submit_button", "2,-1")] stocked)) "2" "-1");
      reflexivity.
  - apply (proj1 (proj2 (edit_quantity_route sample_lexer
                           [("submit_button", "2")] stocked)) "2");
      [reflexivity|discriminate].
Defined.

(** *** Items as the main page shows them *)










(** *** Opening the database again *)

(** X22.  When the engine never takes a text for the name of its
    bookkeeping table, a database that can be opened stays one that can be
    opened, whatever method is called on the manager: the bookkeeping table
    is still there, no warehouse table bears its name, and the constructor
    on that database returns an object that lists exactly its tables. *)
Theorem database_stays_openable lx c m :
  (forall s, table_ref lx s <> Some sequence_name) ->
  has_sequence (connection m) = true ->
  ~ In sequence_name (map fst (tables (connection m))) ->
  has_sequence (connection (step lx c m)) = true
  /\ ~ In sequence_name (map fst (tables (connection (step lx c m))))
  /\ init lx (DatabaseFile (connection (step lx c m)))
     = inr (mkManager (connection (step lx c m)) None
                      (map fst (tables (connection (step lx c m))))
                      None None).
Proof.
  intros Hlx Hs Hn.
  set (P := fun db : Store =>
              has_sequence db = true
              /\ ~ In sequence_name (map fst (tables db))).
  assert (Hexec : forall q s s', P s -> exec lx q s = Some s' -> P s').
  { intros q s s' [H1 H2] E.
    assert (Hst : forall k t, P (store_table k t s)).
    { intros k t. split; simpl; [exact H1|now rewrite map_fst_update]. }
    destruct q as [tbl|dst src|tbl|tbl|tbl n qty o|tbl qty z|tbl n z qty o old
                  |tbl a]; simpl in E.
    - destruct (table_ref lx tbl) as [k|] eqn:Ek; [|discriminate].
      destruct (lookup k (tables s)); [discriminate|].
      inversion E. split; simpl; [reflexivity|].
      rewrite map_app. intros Hin. apply in_app_or in Hin as [Hin|[Hin|[]]].
      + now apply H2.
      + simpl in Hin. subst k. now apply (Hlx tbl).
    - destruct (resolve lx dst s) as [[kd td]|]; [|discriminate].
      destruct (resolve lx src s) as [[ks ts]|]; [|discriminate].
      destruct (existsb _ _); [discriminate|]. inversion E. apply Hst.
    - destruct (resolve lx tbl s) as [[k t]|]; [|discriminate].
      inversion E. apply Hst.
    - destruct (resolve lx tbl s) as [[k t]|]; [|discriminate].
      inversion E. split; simpl; [exact H1|].
      intros Hin. apply H2. apply in_map_iff in Hin as [[k1 t1] [E1 Hin]].
      apply In_drop in Hin. apply in_map_iff. now exists (k1, t1).
    - destruct (resolve lx tbl s) as [[k t]|]; [|discriminate].
      destruct (quoted lx n) as [n'|f|]; [| |discriminate].
      + destruct (quoted lx o) as [o'|f|]; [| |discriminate].
        * destruct (int64 _); [|discriminate]. inversion E. apply Hst.
        * destruct (rewritten_Some _ _ _ _ _ E) as (t' & -> & _). apply Hst.
      + destruct (rewritten_Some _ _ _ _ _ E) as (t' & -> & _). apply Hst.
    - destruct (resolve lx tbl s) as [[k t]|]; [|discriminate].
      inversion E. apply Hst.
    - destruct (resolve lx tbl s) as [[k t]|]; [|discriminate].
      destruct (quoted lx n) as [n'|f|]; [| |discriminate].
      + destruct (quoted lx o) as [o'|f|]; [| |discriminate].
        * destruct (has_id old (rows t)); [|inversion E; subst; now split].
          destruct (int64 z && negb (has_id z _)); [|discriminate].
          inversion E. apply Hst.
        * destruct (rewritten_Some _ _ _ _ _ E) as (t' & -> & _). apply Hst.
      + destruct (rewritten_Some _ _ _ _ _ E) as (t' & -> & _). apply Hst.
    - destruct (resolve lx tbl s) as [[k t]|]; [|discriminate].
      destruct (condition lx a); [|discriminate].
      inversion E. apply Hst. }
  destruct (carries_step lx P Hexec c m (conj Hs Hn)) as [Hs' Hn'].
  split; [exact Hs'|]. split; [exact Hn'|].
  now apply init_existing.
Qed.

Lemma strict_lexer_reserved s :
  table_ref strict_lexer s <> Some sequence_name.
Proof.
  simpl.
  destruct (plain_identifier s && negb (String.prefix "sqlite_" s)) eqn:E;
    [|discriminate].
  intros H. inversion H. subst s. discriminate E.
Qed.

Lemma database_stays_openable_witness :
  init strict_lexer
    (DatabaseFile (connection (step strict_lexer
                                 (AddWarehouse "B wing" true) stocked)))
  = inr (mkManager
           (connection (step strict_lexer (AddWarehouse "B wing" true)
                             stocked))
           None
           (map fst (tables (connection
                               (step strict_lexer
                                  (AddWarehouse "B wing" true) stocked))))
           None None).
Proof.
  apply (database_stays_openable strict_lexer (AddWarehouse "B wing" true)
           stocked).
  - exact strict_lexer_reserved.
  - reflexivity.
  - simpl. intros [H|[]]. discriminate.
Defined.
